(** * Biomedical signal filtering: sampling-rate estimation and band-pass
    filter set-up of [biomedical_filtering.py]

    The development embeds the script:
    - lines 113-114 of [main]: [fs = round(1 / np.mean(np.diff(Time_sec)))];
    - [filter_signal] (lines 57-88): Nyquist frequency, band selection by
      signal type, range validation, and the hand-over to
      [scipy.signal.butter] and [scipy.signal.filtfilt];
    - [load_data] (lines 20-52) and the interactive [main] (lines 93-145),
      over the pandas, scipy and system calls they make.

    Python [float] and [numpy.float64] are IEEE-754 binary64 numbers; they
    are modelled by Rocq's primitive floats, whose operations are the same
    binary64 operations.  Python [int] is [Z].  Exceptions are values of
    an error type; a computation that can raise returns a [result]. *)

From Stdlib Require Import Arith ZArith List String Ascii Bool Lia Floats Uint63.
From Stdlib Require Import DecimalString.
Import ListNotations.

Set Warnings "-inexact-float".

Local Open Scope Z_scope.

(** ** Python exceptions and fallible computations *)

(** The text an exception carries.  The one formatted message of the
    script keeps the values it interpolates:
    [f"Invalid filter range. fs={fs}, low={lowcut}, high={highcut}"]. *)
Inductive message : Type :=
| Text (s : string)
| InvalidFilterRange (fs : Z) (lowcut highcut : float).

Inductive exn : Type :=
| ValueError (m : message)
| OverflowError (m : message)
| ZeroDivisionError (m : message).

Inductive result (A : Type) : Type :=
| Ok (a : A)
| Raise (e : exn).

Arguments Ok {A} a.
Arguments Raise {A} e.

Definition bind {A B : Type} (r : result A) (k : A -> result B) : result B :=
  match r with
  | Ok a => k a
  | Raise e => Raise e
  end.

Notation "x <- r ;; k" := (bind r (fun x => k))
  (at level 61, r at next level, right associativity).

(** ** Binary64 arithmetic as Python and numpy expose it *)

Module Py.

(** The binary64 number nearest to an integer, ties to even; an integer
    too large in magnitude rounds to an infinity. *)
Definition of_Z (z : Z) : float :=
  SF2Prim (binary_normalize prec emax z 0 false).

(** The least magnitude that does not convert: [2^1024 - 2^970], half an
    ulp above the largest finite binary64 number. *)
Definition int_max_float : Z := 2 ^ 1024 - 2 ^ 970.

(** Implicit [int -> float] conversion of a mixed operation such as
    [0.5 * fs]. *)
Definition float_of_int (z : Z) : result float :=
  if Z.abs z <? int_max_float then Ok (of_Z z)
  else Raise (OverflowError (Text "int too large to convert to float")).

(** [float * int]. *)
Definition mul_float_int (x : float) (n : Z) : result float :=
  y <- float_of_int n ;; Ok (x * y)%float.

(** [float / float] on Python floats: a zero divisor raises. *)
Definition truediv (x y : float) : result float :=
  if (y =? 0)%float then Raise (ZeroDivisionError (Text "float division by zero"))
  else Ok (x / y)%float.

(** The integer nearest to [m * 2^e], ties to the even neighbour. *)
Definition round_half_even (m : positive) (e : Z) : Z :=
  match e with
  | Zneg p =>
      let d := Z.pow_pos 2 p in
      let q := Zpos m / d in
      let r := Zpos m mod d in
      match 2 * r ?= d with
      | Lt => q
      | Gt => q + 1
      | Eq => if Z.even q then q else q + 1
      end
  | _ => Zpos m * 2 ^ e
  end.

(** [round(x)] with no [ndigits]: a Python [int], or an exception on NaN
    and on the infinities. *)
Definition round (x : float) : result Z :=
  match Prim2SF x with
  | S754_nan => Raise (ValueError (Text "cannot convert float NaN to integer"))
  | S754_infinity _ =>
      Raise (OverflowError (Text "cannot convert float infinity to integer"))
  | S754_zero _ => Ok 0
  | S754_finite s m e =>
      Ok (if s then - round_half_even m e else round_half_even m e)
  end.

(** The chained comparison [0 < low < high < 1]. *)
Definition chain_lt (low high : float) : bool :=
  (0 <? low)%float && (low <? high)%float && (high <? 1)%float.

End Py.

(** ** The numpy calls of the estimation *)

Module Np.

(** [np.diff(a)]: [a[i+1] - a[i]] for every adjacent pair. *)
Fixpoint diff (a : list float) : list float :=
  match a with
  | x :: ((y :: _) as rest) => (y - x)%float :: diff rest
  | _ => []
  end.

Definition accumulate (init : float) (a : list float) : float :=
  fold_left PrimFloat.add a init.

(** One step of the eight-accumulator loop: [r[j] += a[i+j]]. *)
Fixpoint add_lanes (r a : list float) : list float :=
  match r, a with
  | x :: r', y :: a' => (x + y)%float :: add_lanes r' a'
  | _, _ => r
  end.

(** The loop [for (i = 8; i < n - n % 8; i += 8)]: [blocks] full groups of
    eight are folded into the accumulators; what is left of the array is
    returned with them. *)
Fixpoint unrolled (blocks : nat) (r a : list float) : list float * list float :=
  match blocks with
  | O => (r, a)
  | S b => unrolled b (add_lanes r (firstn 8 a)) (skipn 8 a)
  end.

Definition lane (r : list float) (j : nat) : float := nth j r 0%float.

(** numpy's pairwise summation of a contiguous float64 array: fewer than 8
    elements are added in order; up to 128 go through eight accumulators
    combined as a balanced tree; a longer array is split in two halves, the
    first a multiple of eight long. *)
Fixpoint pairwise_sum (fuel : nat) (a : list float) : float :=
  let n := List.length a in
  if (n <? 8)%nat then accumulate (-0)%float a
  else if (n <=? 128)%nat then
    let '(r, rest) := unrolled (n / 8 - 1) (firstn 8 a) (skipn 8 a) in
    let res :=
      (((lane r 0 + lane r 1) + (lane r 2 + lane r 3))
       + ((lane r 4 + lane r 5) + (lane r 6 + lane r 7)))%float in
    accumulate res rest
  else
    match fuel with
    | O => accumulate (-0)%float a
    | S fuel' =>
        let n2 := (n / 2 - (n / 2) mod 8)%nat in
        (pairwise_sum fuel' (firstn n2 a) + pairwise_sum fuel' (skipn n2 a))%float
    end.

(** [np.add.reduce] on float64: the empty sum is [0.0]; otherwise the
    pairwise sum is added to the initial value [-0.0]. *)
Definition sum (a : list float) : float :=
  match a with
  | [] => 0%float
  | _ => (-0 + pairwise_sum (List.length a) a)%float
  end.

(** [np.mean(a)]: the sum divided by the element count.  On an empty array
    this is [0.0 / 0], a NaN (numpy only warns). *)
Definition mean (a : list float) : float :=
  (sum a / Py.of_Z (Z.of_nat (List.length a)))%float.

(** [1 / x] on a [numpy.float64]: IEEE division, no exception. *)
Definition reciprocal (x : float) : float := (1 / x)%float.

End Np.

(** ** Sampling-rate estimation ([main], lines 113-114) *)

(** [time_diffs = np.diff(df['Time_sec'])]
    [fs = round(1 / np.mean(time_diffs))] *)
Definition estimate_fs (time_sec : list float) : result Z :=
  let time_diffs := Np.diff time_sec in
  Py.round (Np.reciprocal (Np.mean time_diffs)).

(** ** Band-pass filtering ([filter_signal], lines 57-88) *)

(** The two messages [filter_signal] raises with. *)
Definition unsupported_signal_type : exn :=
  ValueError (Text "Unsupported signal type. Choose 'ecg' or 'eeg'.").

Definition invalid_filter_range (fs : Z) (lowcut highcut : float) : exn :=
  ValueError (InvalidFilterRange fs lowcut highcut).

(** Lines 72-79: the [if]/[elif]/[else] on [signal_type] that binds
    [lowcut] and [highcut]. *)
Definition band_edges (signal_type : string) : result (float * float) :=
  if String.eqb signal_type "ecg" then Ok (0.5, 45.0)%float
  else if String.eqb signal_type "eeg" then Ok (1.0, 30.0)%float
  else Raise unsupported_signal_type.

(** The default of the parameter [order]. *)
Definition default_order : Z := 4.

Section Scipy.

(** [scipy.signal.butter(order, [low, high], btype='band')] and
    [scipy.signal.filtfilt(b, a, data)] are library code the script only
    calls; they are parameters of the embedding. *)
Variable coefficients : Type.
Variable butter : Z -> float -> float -> result coefficients.
Variable filtfilt : coefficients -> list float -> result (list float).

Definition filter_signal (data : list float) (fs : Z) (signal_type : string)
    (order : Z) : result (list float) :=
  nyq <- Py.mul_float_int 0.5 fs ;;
  edges <- band_edges signal_type ;;
  let '(lowcut, highcut) := edges in
  low <- Py.truediv lowcut nyq ;;
  high <- Py.truediv highcut nyq ;;
  if negb (Py.chain_lt low high) then Raise (invalid_filter_range fs lowcut highcut)
  else
    ba <- butter order low high ;;
    filtfilt ba data.

(** Lines 113-118 of [main]: the rate is estimated from the time column
    and the signal column is filtered with the default order. *)
Definition main_pipeline (time_sec signal : list float) (signal_type : string)
    : result (Z * list float) :=
  fs <- estimate_fs time_sec ;;
  filtered_signal <- filter_signal signal fs signal_type default_order ;;
  Ok (fs, filtered_signal).

End Scipy.

Arguments filter_signal {coefficients} butter filtfilt data fs signal_type order.
Arguments main_pipeline {coefficients} butter filtfilt time_sec signal signal_type.

(** ** Strings as Python handles them

    A string is its sequence of code points, here those below 256. *)

Module Str.

(** [s.replace(c, "")] for a one-character [c]: every occurrence goes. *)
Fixpoint remove_char (c : ascii) (s : string) : string :=
  match s with
  | EmptyString => EmptyString
  | String d rest =>
      if Ascii.eqb d c then remove_char c rest
      else String d (remove_char c rest)
  end.

(** [s.count(c)] for a one-character [c]. *)
Fixpoint count_char (c : ascii) (s : string) : nat :=
  match s with
  | EmptyString => O
  | String d rest =>
      if Ascii.eqb d c then S (count_char c rest) else count_char c rest
  end.

(** [s.endswith(suffix)]: some tail of [s] is [suffix]. *)
Fixpoint endswith (s suffix : string) : bool :=
  String.eqb s suffix
  || match s with
     | EmptyString => false
     | String _ rest => endswith rest suffix
     end.

(** [c.isspace()]: tab to carriage return, the four separators, the
    space, NEL and the no-break space. *)
Definition isspace (c : ascii) : bool :=
  let n := nat_of_ascii c in
  ((9 <=? n) && (n <=? 13) || (28 <=? n) && (n <=? 32)
   || (n =? 133) || (n =? 160))%nat.

Fixpoint lstrip (s : string) : string :=
  match s with
  | EmptyString => EmptyString
  | String c rest => if isspace c then lstrip rest else s
  end.

Fixpoint rstrip (s : string) : string :=
  match s with
  | EmptyString => EmptyString
  | String c rest =>
      match rstrip rest with
      | EmptyString => if isspace c then EmptyString else String c EmptyString
      | kept => String c kept
      end
  end.

(** [s.strip()]. *)
Definition strip (s : string) : string := rstrip (lstrip s).

(** [c.lower()]: the capital letters A-Z and the accented capitals
    (192-214, 216-222) move up by 32; nothing else changes. *)
Definition lower_char (c : ascii) : ascii :=
  let n := nat_of_ascii c in
  if ((65 <=? n) && (n <=? 90) || (192 <=? n) && (n <=? 214)
      || (216 <=? n) && (n <=? 222))%nat
  then ascii_of_nat (n + 32)
  else c.

(** [s.lower()]. *)
Fixpoint lower (s : string) : string :=
  match s with
  | EmptyString => EmptyString
  | String c rest => String (lower_char c) (lower rest)
  end.

(** [str(n)] for an [int]. *)
Definition of_int (n : Z) : string := NilZero.string_of_int (Z.to_int n).

End Str.

(** ** Loading the recording ([load_data], lines 20-52) *)

Definition unsupported_file_type : exn :=
  ValueError (Text "Unsupported file type. Use .csv or .xlsx only.").

(** What pandas raises when [df.columns = ['Time', 'Signal']] meets a frame
    of another width. *)
Definition length_mismatch (ncols : nat) : exn :=
  ValueError
    (Text ("Length mismatch: Expected axis has "
           ++ Str.of_int (Z.of_nat ncols)
           ++ " elements, new values have 2 elements")).

(** Lines 42-43 on one entry of the [Time] column: the quotes are removed,
    then an entry with exactly one colon gets the hours in front. *)
Definition normalize_time (x : string) : string :=
  let x := Str.remove_char "'" x in
  if (Str.count_char ":" x =? 1)%nat then ("00:" ++ x)%string else x.

(** A row of the frame [load_data] returns. *)
Record row : Type := {
  Time : string;
  Signal : float;
  Time_sec : float
}.

(** [df.dropna(subset=['Signal'])]. *)
Definition dropna (rows : list row) : list row :=
  filter (fun r => negb (PrimFloat.is_nan (Signal r))) rows.

(** A function applied down a column, stopping at the first element that
    raises. *)
Fixpoint map_result {A B : Type} (f : A -> result B) (l : list A)
    : result (list B) :=
  match l with
  | [] => Ok []
  | x :: rest =>
      y <- f x ;;
      ys <- map_result f rest ;;
      Ok (y :: ys)
  end.

Section Pandas.

(** The pandas calls are parameters: the two readers, the conversion of a
    cell to text ([astype(str)]), the parser of one duration
    ([pd.to_timedelta], which raises on text it cannot read), its length
    in seconds ([total_seconds]), and the numeric reading of a cell
    ([pd.to_numeric] with [errors='coerce'], a NaN where it fails). *)
Variable cell : Type.
Variable timedelta : Type.

(** What a reader returns, as far as [load_data] looks at it: a frame of
    two columns with its rows, or a frame of another width. *)
Inductive raw_frame : Type :=
| TwoColumns (cells : list (cell * cell))
| OtherWidth (ncols : nat).

Variable read_csv : string -> result raw_frame.
Variable read_excel : string -> result raw_frame.
Variable astype_str : cell -> string.
Variable to_timedelta : string -> result timedelta.
Variable total_seconds : timedelta -> float.
Variable to_numeric : cell -> float.

(** Line 46 on one entry. *)
Definition seconds_of (time : string) : result float :=
  td <- to_timedelta time ;; Ok (total_seconds td).

(** The three columns side by side. *)
Fixpoint zip_rows (time : list string) (signal time_sec : list float)
    : list row :=
  match time, signal, time_sec with
  | t :: time', s :: signal', ts :: time_sec' =>
      {| Time := t; Signal := s; Time_sec := ts |}
      :: zip_rows time' signal' time_sec'
  | _, _, _ => []
  end.

(** The row a pair of cells becomes, given the seconds of its time. *)
Definition row_of (c : cell * cell) (secs : float) : row :=
  {| Time := normalize_time (astype_str (fst c));
     Signal := to_numeric (snd c);
     Time_sec := secs |}.

(** Lines 38-52: what [load_data] does with the frame it has read. *)
Definition prepare_frame (df : raw_frame) : result (list row) :=
  match df with
  | OtherWidth ncols => Raise (length_mismatch ncols)
  | TwoColumns cells =>
      let time := map (fun c => normalize_time (astype_str (fst c))) cells in
      time_sec <- map_result seconds_of time ;;
      let signal := map (fun c => to_numeric (snd c)) cells in
      Ok (dropna (zip_rows time signal time_sec))
  end.

Definition load_data (file_path : string) : result (list row) :=
  df <- (if Str.endswith file_path ".csv" then read_csv file_path
         else if Str.endswith file_path ".xlsx" then read_excel file_path
         else Raise unsupported_file_type) ;;
  prepare_frame df.

End Pandas.

Arguments TwoColumns {cell} cells.
Arguments OtherWidth {cell} ncols.

(** ** The interactive script ([main], lines 93-145) *)

(** What a run does that can be seen from outside, in order. *)
Inductive event : Type :=
| Prompted (text : string)
| Printed (line : string)
| Plotted (time_sec signal filtered : list float) (signal_type : string)
| Saved (path : string) (rows : list (row * float)).

(** A computation that adds to the log of events and may raise. *)
Definition io (A : Type) : Type := list event -> list event * result A.

Definition io_ret {A : Type} (a : A) : io A := fun log => (log, Ok a).

Definition io_bind {A B : Type} (c : io A) (k : A -> io B) : io B :=
  fun log =>
    match c log with
    | (log', Ok a) => k a log'
    | (log', Raise e) => (log', Raise e)
    end.

Definition emit (e : event) : io unit := fun log => (log ++ [e], Ok tt).

Definition lift {A : Type} (r : result A) : io A := fun log => (log, r).

Notation "x <~ c ;; k" := (io_bind c (fun x => k))
  (at level 61, c at next level, right associativity).

(** [input(prompt)], given what the user types. *)
Definition input (prompt typed : string) : io string :=
  _ <~ emit (Prompted prompt) ;; io_ret typed.

Definition print (line : string) : io unit := emit (Printed line).

(** What pandas raises when a column of another length is assigned. *)
Definition column_length_mismatch (values index : nat) : exn :=
  ValueError
    (Text ("Length of values (" ++ Str.of_int (Z.of_nat values)
           ++ ") does not match length of index ("
           ++ Str.of_int (Z.of_nat index) ++ ")")).

Section Main.

Variable cell : Type.
Variable timedelta : Type.
Variable read_csv : string -> result (@raw_frame cell).
Variable read_excel : string -> result (@raw_frame cell).
Variable astype_str : cell -> string.
Variable to_timedelta : string -> result timedelta.
Variable total_seconds : timedelta -> float.
Variable to_numeric : cell -> float.
Variable coefficients : Type.
Variable butter : Z -> float -> float -> result coefficients.
Variable filtfilt : coefficients -> list float -> result (list float).

(** [os.path.exists], the drawing of the two plots (lines 121-137) and
    [df.to_csv] are parameters as well; the last two may raise. *)
Variable path_exists : string -> bool.
Variable show_plots :
  list float -> list float -> list float -> string -> result unit.
Variable to_csv : list (row * float) -> string -> result unit.

(** Lines 139-145. *)
Definition save_filtered (df : list row) (filtered_signal : list float)
    (typed_save_option : string) : io unit :=
  typed <~ input "Save filtered signal as CSV? (y/n): " typed_save_option ;;
  let save_option := Str.lower (Str.strip typed) in
  if String.eqb save_option "y" then
    _ <~ lift (if (List.length filtered_signal =? List.length df)%nat then Ok tt
               else Raise (column_length_mismatch
                             (List.length filtered_signal) (List.length df))) ;;
    let output_file := "filtered_output.csv"%string in
    let saved := combine df filtered_signal in
    _ <~ emit (Saved output_file saved) ;;
    _ <~ lift (to_csv saved output_file) ;;
    print ("Filtered signal saved to: " ++ output_file)
  else io_ret tt.

(** [main], given what the user types at its three prompts. *)
Definition main (typed_file_path typed_signal_type typed_save_option : string)
    : io unit :=
  file_path <~ input "Enter path to ECG/EEG file (.csv or .xlsx): "
                     typed_file_path ;;
  typed <~ input "Enter signal type (ECG or EEG): " typed_signal_type ;;
  let signal_type := Str.lower (Str.strip typed) in
  if negb (path_exists file_path) then print "File not found."
  else
    df <~ lift (load_data cell timedelta read_csv read_excel astype_str
                  to_timedelta total_seconds to_numeric file_path) ;;
    fs <~ lift (estimate_fs (map Time_sec df)) ;;
    _ <~ print ("Estimated sampling frequency: " ++ Str.of_int fs ++ " Hz") ;;
    filtered_signal <~ lift (filter_signal butter filtfilt (map Signal df) fs
                               signal_type default_order) ;;
    _ <~ emit (Plotted (map Time_sec df) (map Signal df) filtered_signal
                 signal_type) ;;
    _ <~ lift (show_plots (map Time_sec df) (map Signal df) filtered_signal
                 signal_type) ;;
    save_filtered df filtered_signal typed_save_option.

End Main.

(** ** Inputs used in the statements below *)

(** The integers [1; ...; n]. *)
Definition positives_up_to (n : nat) : list Z :=
  map Z.of_nat (List.seq 1 n).

(** Whether [filter_signal] would reject the band [lowcut, highcut] at the
    sampling rate [fs] with a non-zero Nyquist frequency: lines 70 and
    81-84 on concrete numbers. *)
Definition band_rejected (lowcut highcut : float) (fs : Z) : bool :=
  let nyq := (0.5 * Py.of_Z fs)%float in
  negb (nyq =? 0)%float
  && negb (Py.chain_lt (lowcut / nyq) (highcut / nyq)).


(** The binary64 numbers nearest to [0 * num/den; 1 * num/den; ...]: the
    quotient of two integers that convert exactly is correctly rounded. *)
Definition decimal_grid (num den : Z) (n : nat) : list float :=
  map (fun i => (Py.of_Z (Z.of_nat i * num) / Py.of_Z den)%float) (List.seq 0 n).

(** Stand-ins for the two scipy calls, used where a statement is
    evaluated on concrete numbers: the design records its arguments and
    the application returns its input. *)
Definition butter_args (order : Z) (low high : float) : result (Z * float * float) :=
  Ok (order, low, high).

Definition filtfilt_id (ba : Z * float * float) (data : list float)
    : result (list float) :=
  Ok data.

(** A stand-in for [filtfilt] that returns the order of the design it is
    handed, so that the order [butter] received shows in the result. *)
Definition filtfilt_order (ba : Z * float * float) (data : list float)
    : result (list float) :=
  Ok [Py.of_Z (fst (fst ba))].

(** Stand-ins for the pandas and system calls, used where a statement is
    evaluated on concrete values: cells are text, a duration is read from
    the shape [00:00:NN] as [NN] ticks of 1/128 s, and the one cell that is
    not a number is ["bad"]. *)
Definition demo_cells : list (string * string) :=
  [("'00:01", "1.5"); ("00:00:02'", "bad"); ("00:00:03", "2.5");
   ("00:04", "3.5")]%string.

Definition demo_reader (file_path : string) : result (@raw_frame string) :=
  Ok (TwoColumns demo_cells).

Definition demo_digit (c : ascii) : option nat :=
  let n := nat_of_ascii c in
  if ((48 <=? n) && (n <=? 57))%nat then Some (n - 48)%nat else None.

Definition demo_to_timedelta (time : string) : result nat :=
  match time with
  | String "0" (String "0" (String ":" (String "0" (String "0" (String ":"
      (String a (String b EmptyString))))))) =>
      match demo_digit a, demo_digit b with
      | Some x, Some y => Ok (10 * x + y)%nat
      | _, _ => Raise (ValueError (Text "unit abbreviation w/o a number"))
      end
  | _ => Raise (ValueError (Text "unit abbreviation w/o a number"))
  end.

Definition demo_total_seconds (td : nat) : float :=
  (Py.of_Z (Z.of_nat td) / 128)%float.

Definition demo_to_numeric (c : string) : float :=
  if String.eqb c "bad" then nan
  else if String.eqb c "1.5" then 1.5%float
  else if String.eqb c "2.5" then 2.5%float
  else 3.5%float.

Definition demo_show_plots (time_sec signal filtered : list float)
    (signal_type : string) : result unit :=
  Ok tt.

Definition demo_to_csv (rows : list (row * float)) (path : string) : result unit :=
  Ok tt.

Definition demo_load_data : string -> result (list row) :=
  load_data string nat demo_reader demo_reader (fun c => c)
    demo_to_timedelta demo_total_seconds demo_to_numeric.

Definition demo_main (path_exists : string -> bool) : string -> string -> string -> io unit :=
  main string nat demo_reader demo_reader (fun c => c)
    demo_to_timedelta demo_total_seconds demo_to_numeric
    (Z * float * float) butter_args filtfilt_id
    path_exists demo_show_plots demo_to_csv.

(** A stand-in for [filtfilt] that refuses a signal with a NaN. *)
Definition demo_filtfilt_strict (ba : Z * float * float) (data : list float)
    : result (list float) :=
  if existsb PrimFloat.is_nan data
  then Raise (ValueError (Text "array must not contain infs or NaNs"))
  else Ok data.

(** Whether a string consists of whitespace only. *)
Fixpoint all_space (s : string) : bool :=
  match s with
  | EmptyString => true
  | String c rest => Str.isspace c && all_space rest
  end.

(** Whether a string contains no whitespace. *)
Fixpoint no_space (s : string) : bool :=
  match s with
  | EmptyString => true
  | String c rest => negb (Str.isspace c) && no_space rest
  end.

(** Whether [p] holds of the [count] integers from [first] upwards. *)
Fixpoint holds_from (p : Z -> bool) (first : Z) (count : nat) : bool :=
  match count with
  | O => true
  | S count' => p first && holds_from p (first + 1) count'
  end.










(** A binary64 value of sign [s] that is not a NaN. *)
Inductive signed_like (s : bool) : spec_float -> Prop :=
| signed_zero : signed_like s (S754_zero s)
| signed_infinity : signed_like s (S754_infinity s)
| signed_finite m e : signed_like s (S754_finite s m e).

(** A finite or infinite value of sign [s] whose magnitude
    [digits + exponent], when finite, is at least [g]. *)
Inductive at_least (s : bool) (g : Z) : spec_float -> Prop :=
| at_least_infinity : at_least s g (S754_infinity s)
| at_least_finite m e :
    g <= Zpos (digits2_pos m) + e -> at_least s g (S754_finite s m e).

(** * Properties *)

(** ** Binary64 facts *)

Lemma Prim2SF_one : Prim2SF 1 = S754_finite false 4503599627370496 (-52).
Proof. reflexivity. Qed.

Lemma Prim2SF_zero : Prim2SF 0 = S754_zero false.
Proof. reflexivity. Qed.

(** [round] goes to the nearest integer and breaks ties towards the even
    one, on both sides of zero. *)
Example round_ties :
  Py.round 0.5 = Ok 0 /\ Py.round 1.5 = Ok 2 /\ Py.round 2.5 = Ok 2
  /\ Py.round (-2.5) = Ok (-2) /\ Py.round 2.5000000000000004 = Ok 3.
Proof. repeat split; reflexivity. Qed.

(** The conversion bound is where rounding reaches the infinity. *)
Example int_max_float_is_sharp :
  Py.of_Z (Py.int_max_float - 1) = 0x1.fffffffffffffp+1023%float
  /\ Py.of_Z Py.int_max_float = infinity.
Proof. split; reflexivity. Qed.



(** *** The sign of a rounded quotient *)

Lemma shr_1_nonneg (mrs : shr_record) :
  0 <= shr_m mrs -> 0 <= shr_m (shr_1 mrs).
Proof.
  destruct mrs as [m r s]; destruct m as [ | [p | p | ] | p]; cbn; lia.
Qed.

Lemma iter_shr_1_nonneg (p : positive) :
  forall mrs, 0 <= shr_m mrs -> 0 <= shr_m (iter_pos shr_1 p mrs).
Proof.
  induction p as [p IH | p IH | ]; cbn; intros mrs H.
  - apply IH, IH, shr_1_nonneg, H.
  - apply IH, IH, H.
  - apply shr_1_nonneg, H.
Qed.

Lemma shr_record_of_loc_m (m : Z) (l : location) :
  shr_m (shr_record_of_loc m l) = m.
Proof. destruct l as [ | [ | | ]]; reflexivity. Qed.

Lemma shr_fexp_nonneg (m e : Z) (l : location) :
  0 <= m -> 0 <= shr_m (fst (shr_fexp prec emax m e l)).
Proof.
  intros H. unfold shr_fexp, shr.
  destruct (fexp prec emax (Zdigits2 m + e) - e) as [ | p | p]; cbn [fst];
    try (rewrite shr_record_of_loc_m; exact H).
  apply iter_shr_1_nonneg. rewrite shr_record_of_loc_m. exact H.
Qed.

Lemma round_nearest_even_nonneg (m : Z) (l : location) :
  0 <= m -> 0 <= round_nearest_even m l.
Proof.
  intros H. destruct l as [ | [ | | ]]; cbn; try destruct (Z.even m); lia.
Qed.

(** Rounding a non-negative mantissa keeps the requested sign and never
    produces a NaN. *)
Lemma binary_round_aux_signed (s : bool) (m e : Z) (l : location) :
  0 <= m -> signed_like s (binary_round_aux prec emax s m e l).
Proof.
  intros H. unfold binary_round_aux.
  pose proof (shr_fexp_nonneg m e l H) as H1.
  destruct (shr_fexp prec emax m e l) as [mrs' e']. cbn [fst] in H1.
  pose proof (shr_fexp_nonneg _ e' loc_Exact
                (round_nearest_even_nonneg _ (loc_of_shr_record mrs') H1)) as H2.
  destruct (shr_fexp prec emax _ e' loc_Exact) as [mrs'' e'']. cbn [fst] in H2.
  destruct (shr_m mrs'') as [ | p | p].
  - constructor.
  - destruct (e'' <=? emax - prec); constructor.
  - lia.
Qed.

Lemma SFdiv_core_binary_nonneg (mx my : positive) (ex ey : Z) :
  0 <= fst (fst (SFdiv_core_binary prec emax (Zpos mx) ex (Zpos my) ey)).
Proof.
  unfold SFdiv_core_binary.
  set (s := ex - ey - _).
  set (m' := match s with Z0 => Zpos mx | Zpos _ => Z.shiftl (Zpos mx) s | Zneg _ => 0 end).
  assert (Hm : 0 <= m').
  { subst m'. destruct s; try lia. apply Z.shiftl_nonneg. lia. }
  pose proof (Z.div_pos m' (Zpos my) Hm eq_refl) as Hq.
  unfold Z.div in Hq.
  destruct (Z.div_eucl m' (Zpos my)) as [q r]. exact Hq.
Qed.


Lemma round_half_even_nonneg (m : positive) (e : Z) :
  0 <= Py.round_half_even m e.
Proof.
  unfold Py.round_half_even. destruct e as [ | p | p].
  - lia.
  - pose proof (Z.pow_nonneg 2 (Zpos p)). nia.
  - assert (0 <= Zpos m / Z.pow_pos 2 p).
    { apply Z.div_pos; [lia | ]. rewrite Z.pow_pos_fold. apply Z.pow_pos_nonneg; lia. }
    destruct (2 * (Zpos m mod Z.pow_pos 2 p) ?= Z.pow_pos 2 p);
      try destruct (Z.even _); lia.
Qed.

(** ** [np.diff] *)

Lemma diff_cons2 (x y : float) (rest : list float) :
  Np.diff (x :: y :: rest) = (y - x)%float :: Np.diff (y :: rest).
Proof. reflexivity. Qed.



(** Equal successive differences: [np.diff] is a constant array. *)
Lemma diff_constant (delta : float) (a : list float) :
  (forall i, (S i < List.length a)%nat ->
     (nth (S i) a 0 - nth i a 0)%float = delta) ->
  Np.diff a = repeat delta (List.length a - 1).
Proof.
  induction a as [ | x a IH]; intros H; [reflexivity | ].
  destruct a as [ | y rest]; [reflexivity | ].
  rewrite diff_cons2.
  replace (List.length (x :: y :: rest) - 1)%nat
    with (S (List.length (y :: rest) - 1)) by (cbn [List.length]; lia).
  cbn [repeat]. f_equal.
  - apply (H 0%nat). cbn [List.length]. lia.
  - apply IH. intros i Hi. apply (H (S i)). cbn [List.length] in *. lia.
Qed.

(** ** [np.sum] *)

Lemma pairwise_sum_unfold (fuel : nat) (a : list float) :
  Np.pairwise_sum fuel a
  = let n := List.length a in
    if (n <? 8)%nat then Np.accumulate (-0)%float a
    else if (n <=? 128)%nat then
      let '(r, rest) := Np.unrolled (n / 8 - 1) (firstn 8 a) (skipn 8 a) in
      let res :=
        (((Np.lane r 0 + Np.lane r 1) + (Np.lane r 2 + Np.lane r 3))
         + ((Np.lane r 4 + Np.lane r 5) + (Np.lane r 6 + Np.lane r 7)))%float in
      Np.accumulate res rest
    else
      match fuel with
      | O => Np.accumulate (-0)%float a
      | S fuel' =>
          let n2 := (n / 2 - (n / 2) mod 8)%nat in
          (Np.pairwise_sum fuel' (firstn n2 a)
           + Np.pairwise_sum fuel' (skipn n2 a))%float
      end.
Proof. destruct fuel; reflexivity. Qed.

(** The fuel given by [Np.sum] is never exhausted: any fuel of at least the
    length of the array gives the same sum. *)
Lemma pairwise_sum_fuel (fuel : nat) :
  forall (a : list float) (fuel' : nat),
    (List.length a <= fuel)%nat -> (List.length a <= fuel')%nat ->
    Np.pairwise_sum fuel a = Np.pairwise_sum fuel' a.
Proof.
  induction fuel as [ | fuel IH]; intros a fuel' H H'.
  - rewrite !pairwise_sum_unfold. cbv zeta.
    destruct (List.length a) as [ | n] eqn:E; [reflexivity | lia].
  - rewrite (pairwise_sum_unfold (S fuel)), (pairwise_sum_unfold fuel'). cbv zeta.
    destruct (Nat.ltb_spec (List.length a) 8) as [ | H8]; [reflexivity | ].
    destruct (Nat.leb_spec (List.length a) 128) as [ | H128]; [reflexivity | ].
    destruct fuel' as [ | fuel']; [lia | ].
    set (n := List.length a) in *.
    assert (Hn2 : (1 <= n / 2 - (n / 2) mod 8 <= n - 1)%nat).
    { pose proof (Nat.mod_upper_bound (n / 2) 8 ltac:(lia)).
      pose proof (Nat.div_mod_eq n 2).
      pose proof (Nat.mod_upper_bound n 2 ltac:(lia)). lia. }
    set (n2 := (n / 2 - (n / 2) mod 8)%nat) in *.
    f_equal; apply IH; rewrite ?length_firstn, ?length_skipn; fold n; lia.
Qed.

(** ** Sampling-rate estimation *)



(** C3: with fewer than two timestamps the estimation always fails, and
    always in the same way: the mean of the empty difference array is
    [0.0 / 0], a NaN, and [round] refuses it with a [ValueError].  No value
    is returned and no other exception is raised. *)
Theorem estimate_fs_too_few_timestamps :
  forall time_sec : list float,
    (List.length time_sec < 2)%nat ->
    estimate_fs time_sec
    = Raise (ValueError (Text "cannot convert float NaN to integer")).
Proof.
  intros [ | x [ | y rest]] H.
  - reflexivity.
  - reflexivity.
  - cbn [List.length] in H. lia.
Qed.

Lemma estimate_fs_too_few_timestamps_witness :
  (List.length [1.5%float] < 2)%nat
  /\ estimate_fs [1.5%float]
     = Raise (ValueError (Text "cannot convert float NaN to integer")).
Proof.
  split; [cbn; lia | ].
  apply (estimate_fs_too_few_timestamps [1.5%float]). cbn. lia.
Defined.




(** ** What [round] can return *)

Lemma digits2_pos_bound (m : positive) :
  Zpos m < 2 ^ Zpos (digits2_pos m).
Proof.
  induction m as [p IH | p IH | ]; cbn [digits2_pos];
    try (rewrite Pos2Z.inj_succ, Z.pow_succ_r by lia; lia).
  reflexivity.
Qed.

(** The mantissa and exponent of a finite binary64 number. *)
Lemma finite_bounds (x : float) (s : bool) (m : positive) (e : Z) :
  Prim2SF x = S754_finite s m e -> Zpos m < 2 ^ 53 /\ e <= 971.
Proof.
  intros H. pose proof (Prim2SF_valid x) as V. rewrite H in V.
  cbn [SpecFloat.valid_binary] in V. unfold bounded, canonical_mantissa in V.
  apply andb_prop in V. destruct V as [C B].
  apply Z.eqb_eq in C. apply Z.leb_le in B.
  change (emax - prec) with 971 in B. split; [ | exact B].
  unfold fexp in C. change prec with 53 in C.
  pose proof (digits2_pos_bound m) as D.
  assert (Hd : Zpos (digits2_pos m) <= 53) by lia.
  apply Z.lt_le_trans with (1 := D).
  apply Z.pow_le_mono_r; lia.
Qed.

Lemma round_half_even_le (m : positive) (e : Z) :
  e <= 971 -> Py.round_half_even m e <= Zpos m * 2 ^ 971.
Proof.
  intros He. unfold Py.round_half_even.
  assert (P : 1 <= 2 ^ 971) by (apply Z.lt_pred_le; reflexivity).
  destruct e as [ | p | p].
  - nia.
  - assert (2 ^ Zpos p <= 2 ^ 971) by (apply Z.pow_le_mono_r; lia). nia.
  - rewrite Z.pow_pos_fold.
    assert (Hd : 2 <= 2 ^ Zpos p).
    { change 2 with (2 ^ 1) at 1. apply Z.pow_le_mono_r; lia. }
    set (d := 2 ^ Zpos p) in *.
    pose proof (Z.div_mod (Zpos m) d ltac:(lia)) as E.
    pose proof (Z.mod_pos_bound (Zpos m) d ltac:(lia)) as R.
    assert (Q : 0 <= Zpos m / d) by (apply Z.div_pos; lia).
    set (q := Zpos m / d) in *. set (r := Zpos m mod d) in *.
    assert (q + 1 <= Zpos m \/ 2 * r < d) as [K | K] by nia.
    + destruct (2 * r ?= d); try destruct (Z.even q); nia.
    + destruct (Z.compare_spec (2 * r) d); try lia. nia.
Qed.

(** Every integer [round] returns converts back to a float: it is within
    the range [filter_signal] can multiply by [0.5]. *)
Lemma round_in_float_range (x : float) (z : Z) :
  Py.round x = Ok z -> Z.abs z < Py.int_max_float.
Proof.
  unfold Py.round. destruct (Prim2SF x) as [s | s | | s m e] eqn:E;
    try discriminate; intros H; injection H as <-.
  - reflexivity.
  - destruct (finite_bounds x s m e E) as [Hm He].
    pose proof (round_half_even_nonneg m e) as N.
    pose proof (round_half_even_le m e He) as L.
    assert (B : (2 ^ 53 - 1) * 2 ^ 971 < Py.int_max_float) by reflexivity.
    assert (P : 0 < 2 ^ 971) by reflexivity.
    assert (Zpos m * 2 ^ 971 <= (2 ^ 53 - 1) * 2 ^ 971).
    { apply Z.mul_le_mono_nonneg_r; lia. }
    destruct s; lia.
Qed.

(** ** Band-pass filtering *)

Lemma float_of_int_in_range (fs : Z) :
  Z.abs fs < Py.int_max_float -> Py.float_of_int fs = Ok (Py.of_Z fs).
Proof.
  intros H. unfold Py.float_of_int.
  destruct (Z.ltb_spec (Z.abs fs) Py.int_max_float); [reflexivity | lia].
Qed.

Lemma mul_float_int_inv (x nyq : float) (fs : Z) :
  Py.mul_float_int x fs = Ok nyq -> nyq = (x * Py.of_Z fs)%float.
Proof.
  unfold Py.mul_float_int, Py.float_of_int.
  destruct (Z.abs fs <? Py.int_max_float); cbn; [ | discriminate].
  intros H. now injection H as <-.
Qed.

(** The selection on [signal_type] has three outcomes. *)
Lemma band_edges_cases (signal_type : string) :
  (signal_type = "ecg"%string /\ band_edges signal_type = Ok (0.5, 45.0)%float)
  \/ (signal_type = "eeg"%string /\ band_edges signal_type = Ok (1.0, 30.0)%float)
  \/ (signal_type <> "ecg"%string /\ signal_type <> "eeg"%string
      /\ band_edges signal_type = Raise unsupported_signal_type).
Proof.
  unfold band_edges.
  destruct (String.eqb_spec signal_type "ecg") as [-> | H1]; [now left | ].
  destruct (String.eqb_spec signal_type "eeg") as [-> | H2]; [right; now left | ].
  right; right. now repeat split.
Qed.

Section FilterSignalFacts.

Variable coefficients : Type.
Variable butter : Z -> float -> float -> result coefficients.
Variable filtfilt : coefficients -> list float -> result (list float).

(** Once the Nyquist frequency is computed and is not zero, the outcome is
    decided by the chained comparison. *)
Lemma filter_signal_validated (data : list float) (fs : Z) (signal_type : string)
    (order : Z) (lowcut highcut nyq : float) :
  band_edges signal_type = Ok (lowcut, highcut) ->
  Py.mul_float_int 0.5 fs = Ok nyq ->
  (nyq =? 0)%float = false ->
  filter_signal butter filtfilt data fs signal_type order
  = if Py.chain_lt (lowcut / nyq) (highcut / nyq)
    then ba <- butter order (lowcut / nyq)%float (highcut / nyq)%float ;;
         filtfilt ba data
    else Raise (invalid_filter_range fs lowcut highcut).
Proof.
  intros Hb Hn Hz. unfold filter_signal.
  rewrite Hn. cbn [bind]. rewrite Hb. cbn [bind].
  unfold Py.truediv. rewrite Hz. cbn [bind].
  now destruct (Py.chain_lt _ _).
Qed.

Lemma filter_signal_unsupported (data : list float) (fs : Z) (signal_type : string)
    (order : Z) :
  Z.abs fs < Py.int_max_float ->
  signal_type <> "ecg"%string ->
  signal_type <> "eeg"%string ->
  filter_signal butter filtfilt data fs signal_type order
  = Raise unsupported_signal_type.
Proof.
  intros Hfs H1 H2. unfold filter_signal, Py.mul_float_int.
  rewrite (float_of_int_in_range fs Hfs). cbn [bind].
  destruct (band_edges_cases signal_type) as [[E _] | [[E _] | (_ & _ & E)]];
    [contradiction | contradiction | ].
  rewrite E. reflexivity.
Qed.

(** A returned sequence is what [filtfilt] returned on the unchanged
    [data], with the coefficients [butter] returned for a band that passed
    the check: its length and its values are those of the scipy call. *)
Lemma filter_signal_returns_filtfilt (data : list float) (fs : Z)
    (signal_type : string) (order : Z) (filtered : list float) :
  filter_signal butter filtfilt data fs signal_type order = Ok filtered ->
  exists (nyq lowcut highcut : float) (ba : coefficients),
    Py.mul_float_int 0.5 fs = Ok nyq
    /\ band_edges signal_type = Ok (lowcut, highcut)
    /\ Py.chain_lt (lowcut / nyq) (highcut / nyq) = true
    /\ butter order (lowcut / nyq)%float (highcut / nyq)%float = Ok ba
    /\ filtfilt ba data = Ok filtered.
Proof.
  unfold filter_signal.
  destruct (Py.mul_float_int 0.5 fs) as [nyq | e]; [cbn [bind] | discriminate].
  destruct (band_edges signal_type) as [[lowcut highcut] | e];
    [cbn [bind] | discriminate].
  unfold Py.truediv.
  destruct (nyq =? 0)%float; [discriminate | cbn [bind]].
  destruct (Py.chain_lt _ _) eqn:C; [cbn [negb] | discriminate].
  destruct (butter order _ _) as [ba | e] eqn:B; [cbn [bind] | discriminate].
  intros H. exists nyq, lowcut, highcut, ba. now repeat split.
Qed.

End FilterSignalFacts.

(** Below twice the upper band edge every positive rate is rejected:
    decided on each rate in turn. *)
Lemma ecg_rejected_below_90 :
  forallb (band_rejected 0.5 45.0) (positives_up_to 89) = true.
Proof. vm_compute. reflexivity. Qed.

Lemma eeg_rejected_below_60 :
  forallb (band_rejected 1.0 30.0) (positives_up_to 59) = true.
Proof. vm_compute. reflexivity. Qed.

Lemma in_positives_up_to (n : nat) (fs : Z) :
  0 < fs <= Z.of_nat n -> In fs (positives_up_to n).
Proof.
  intros H. unfold positives_up_to. apply in_map_iff.
  exists (Z.to_nat fs). split; [lia | apply in_seq; lia].
Qed.

Lemma band_rejected_chain (lowcut highcut nyq : float) (fs : Z) :
  nyq = (0.5 * Py.of_Z fs)%float ->
  band_rejected lowcut highcut fs = true ->
  Py.chain_lt (lowcut / nyq) (highcut / nyq) = false.
Proof.
  intros -> H. unfold band_rejected in H.
  apply andb_prop in H. destruct H as [_ H].
  now apply negb_true_iff in H.
Qed.

(** *** The Nyquist frequency of a positive rate *)

Lemma digits2_pos_lower (m : positive) :
  2 ^ (Zpos (digits2_pos m) - 1) <= Zpos m.
Proof.
  induction m as [p IH | p IH | ]; cbn [digits2_pos];
    try (rewrite Pos2Z.inj_succ;
         replace (Z.succ (Zpos (digits2_pos p)) - 1)
           with (Z.succ (Zpos (digits2_pos p) - 1)) by lia;
         rewrite Z.pow_succ_r by lia; lia).
  reflexivity.
Qed.

(** A number at least [2^k] has more than [k] binary digits. *)
Lemma digits2_pos_ge (m : positive) (k : Z) :
  2 ^ k <= Zpos m -> k + 1 <= Zpos (digits2_pos m).
Proof.
  intros H. destruct (Z.le_gt_cases 0 k) as [Hk | Hk]; [ | lia].
  pose proof (digits2_pos_bound m) as U.
  assert (L : 2 ^ k < 2 ^ Zpos (digits2_pos m)) by lia.
  apply Z.pow_lt_mono_r_iff in L; lia.
Qed.

Lemma shr_1_half (mrs : shr_record) :
  0 <= shr_m mrs -> shr_m (shr_1 mrs) = shr_m mrs / 2.
Proof.
  destruct mrs as [m r s]; destruct m as [ | [p | p | ] | p]; cbn [shr_m shr_1];
    intros H; try lia; try reflexivity.
  - apply Z.div_unique with (r := 1); lia.
  - apply Z.div_unique with (r := 0); lia.
Qed.

Lemma iter_shr_1_div (k : positive) :
  forall mrs, 0 <= shr_m mrs ->
    shr_m (iter_pos shr_1 k mrs) = shr_m mrs / 2 ^ Zpos k.
Proof.
  induction k as [k IH | k IH | ]; intros mrs H; cbn [iter_pos].
  - rewrite IH by (apply iter_shr_1_nonneg, shr_1_nonneg, H).
    rewrite IH by (apply shr_1_nonneg, H).
    rewrite shr_1_half by exact H.
    assert (0 < 2 ^ Zpos k) by (apply Z.pow_pos_nonneg; lia).
    rewrite !Z.div_div by lia. f_equal.
    rewrite (Pos2Z.inj_xI k), Z.pow_add_r, Z.pow_twice_r, Z.pow_1_r by lia. lia.
  - rewrite IH by (apply iter_shr_1_nonneg, H).
    rewrite IH by exact H.
    assert (0 < 2 ^ Zpos k) by (apply Z.pow_pos_nonneg; lia).
    rewrite Z.div_div by lia. f_equal.
    rewrite (Pos2Z.inj_xO k), Z.pow_twice_r. reflexivity.
  - rewrite shr_1_half by exact H. reflexivity.
Qed.

(** One alignment step keeps a mantissa that is large enough non-zero and
    does not lower the magnitude [digits + exponent]. *)
Lemma shr_fexp_magnitude (p : positive) (e : Z) (l : location) :
  SpecFloat.emin prec emax < Zpos (digits2_pos p) + e ->
  exists q e',
    shr_m (fst (shr_fexp prec emax (Zpos p) e l)) = Zpos q
    /\ snd (shr_fexp prec emax (Zpos p) e l) = e'
    /\ Zpos (digits2_pos p) + e <= Zpos (digits2_pos q) + e'.
Proof.
  intros H. change (SpecFloat.emin prec emax) with (-1074) in H.
  unfold shr_fexp, shr. cbn [Zdigits2].
  unfold fexp. change (SpecFloat.emin prec emax) with (-1074). change prec with 53.
  set (d := Zpos (digits2_pos p)) in *.
  destruct (Z.max (d + e - 53) (-1074) - e) as [ | k | k] eqn:En; cbn [fst snd];
    try (exists p, e; rewrite shr_record_of_loc_m; repeat split; lia).
  rewrite iter_shr_1_div by (rewrite shr_record_of_loc_m; lia).
  rewrite shr_record_of_loc_m.
  pose proof (digits2_pos_lower p) as L. fold d in L.
  assert (Hk : Zpos k <= d - 1) by lia.
  assert (P : 0 < 2 ^ Zpos k) by (apply Z.pow_pos_nonneg; lia).
  assert (Q : 2 ^ (d - 1 - Zpos k) <= Zpos p / 2 ^ Zpos k).
  { apply Z.div_le_lower_bound; [exact P | ].
    rewrite <- Z.pow_add_r by lia.
    replace (Zpos k + (d - 1 - Zpos k)) with (d - 1) by lia. exact L. }
  assert (P' : 0 < 2 ^ (d - 1 - Zpos k)) by (apply Z.pow_pos_nonneg; lia).
  destruct (Zpos p / 2 ^ Zpos k) as [ | q | q] eqn:Eq; try lia.
  exists q, (e + Zpos k). repeat split.
  pose proof (digits2_pos_ge q _ Q). lia.
Qed.

Lemma round_nearest_even_ge (m : Z) (l : location) :
  m <= round_nearest_even m l.
Proof.
  destruct l as [ | [ | | ]]; cbn; try destruct (Z.even m); lia.
Qed.

Lemma digits2_pos_le (p q : positive) :
  Zpos p <= Zpos q -> Zpos (digits2_pos p) <= Zpos (digits2_pos q).
Proof.
  intros H. pose proof (digits2_pos_lower p) as L.
  pose proof (digits2_pos_ge q (Zpos (digits2_pos p) - 1)). lia.
Qed.

(** Rounding a mantissa above the underflow threshold does not give zero
    and does not lower the magnitude. *)
Lemma binary_round_aux_magnitude (s : bool) (p : positive) (e : Z) (l : location) :
  SpecFloat.emin prec emax < Zpos (digits2_pos p) + e ->
  at_least s (Zpos (digits2_pos p) + e) (binary_round_aux prec emax s (Zpos p) e l).
Proof.
  intros H. unfold binary_round_aux.
  destruct (shr_fexp_magnitude p e l H) as (q & e' & Hq & He' & Hm).
  destruct (shr_fexp prec emax (Zpos p) e l) as [mrs1 e1].
  cbn [fst snd] in Hq, He'. subst e1. rewrite Hq.
  pose proof (round_nearest_even_ge (Zpos q) (loc_of_shr_record mrs1)) as R.
  destruct (round_nearest_even (Zpos q) (loc_of_shr_record mrs1))
    as [ | q' | q'] eqn:Eq'; try lia.
  pose proof (digits2_pos_le q q' R) as D.
  assert (H' : SpecFloat.emin prec emax < Zpos (digits2_pos q') + e') by lia.
  destruct (shr_fexp_magnitude q' e' loc_Exact H') as (r & e'' & Hr & He'' & Hm').
  destruct (shr_fexp prec emax (Zpos q') e' loc_Exact) as [mrs2 e2].
  cbn [fst snd] in Hr, He''. subst e2. rewrite Hr.
  destruct (e'' <=? emax - prec); constructor. lia.
Qed.

Lemma digits2_pos_iter_xO (p k : positive) :
  Zpos (digits2_pos (Pos.iter xO p k)) = Zpos (digits2_pos p) + Zpos k.
Proof.
  induction k as [ | k IH] using Pos.peano_ind.
  - cbn. lia.
  - rewrite Pos.iter_succ. cbn [digits2_pos]. lia.
Qed.

(** The float nearest to a positive integer is at least one. *)
Lemma binary_normalize_positive (p : positive) :
  at_least false 1 (binary_normalize prec emax (Zpos p) 0 false).
Proof.
  cbn [binary_normalize]. unfold binary_round, shl_align.
  set (d := Zpos (digits2_pos p)).
  assert (Hd : 1 <= d) by (subst d; lia).
  destruct (fexp prec emax (d + 0) - 0) as [ | k | k] eqn:Ek.
  - pose proof (binary_round_aux_magnitude false p 0 loc_Exact) as M.
    fold d in M. change (SpecFloat.emin prec emax) with (-1074) in M.
    specialize (M ltac:(lia)).
    destruct M; constructor; lia.
  - pose proof (binary_round_aux_magnitude false p 0 loc_Exact) as M.
    fold d in M. change (SpecFloat.emin prec emax) with (-1074) in M.
    specialize (M ltac:(lia)).
    destruct M; constructor; lia.
  - pose proof (binary_round_aux_magnitude false (Pos.iter xO p k)
                  (fexp prec emax (d + 0)) loc_Exact) as M.
    rewrite digits2_pos_iter_xO in M. fold d in M.
    change (SpecFloat.emin prec emax) with (-1074) in M.
    assert (Ef : fexp prec emax (d + 0) = - Zpos k) by lia.
    rewrite Ef in *.
    specialize (M ltac:(lia)).
    destruct M; constructor; lia.
Qed.

Lemma Prim2SF_half : Prim2SF 0.5 = S754_finite false 4503599627370496 (-53).
Proof. reflexivity. Qed.

(** Half of a value that is at least one is not zero. *)
Lemma SFmul_half_nonzero (y : spec_float) :
  at_least false 1 y ->
  SFeqb (SF64mul (S754_finite false 4503599627370496 (-53)) y) (S754_zero false)
  = false.
Proof.
  intros [ | m e H]; [reflexivity | ].
  unfold SF64mul, SFmul. cbn [xorb].
  pose proof (binary_round_aux_magnitude false (4503599627370496 * m) (-53 + e)
                loc_Exact) as M.
  assert (D : 52 + Zpos (digits2_pos m) <= Zpos (digits2_pos (4503599627370496 * m))).
  { pose proof (digits2_pos_lower m) as L.
    pose proof (digits2_pos_ge (4503599627370496 * m)
                  (52 + (Zpos (digits2_pos m) - 1))) as G.
    rewrite Z.pow_add_r in G by lia.
    change (2 ^ 52) with 4503599627370496 in G.
    rewrite Pos2Z.inj_mul in G. nia. }
  change (SpecFloat.emin prec emax) with (-1074) in M.
  specialize (M ltac:(lia)).
  destruct M; reflexivity.
Qed.

(** The conversion of a non-negative integer below [2^63] is the
    primitive conversion, whose value is the rounded integer. *)
Lemma Prim2SF_of_Z (z : Z) :
  0 <= z < 2 ^ 63 ->
  Prim2SF (Py.of_Z z) = binary_normalize prec emax z 0 false.
Proof.
  intros H. unfold Py.of_Z.
  pose proof (of_uint63_spec (Uint63.of_Z z)) as S.
  rewrite Uint63.of_Z_spec, Z.mod_small in S by exact H.
  rewrite <- S, SF2Prim_Prim2SF. reflexivity.
Qed.

(** For every positive rate below [2^63] the Nyquist frequency is computed
    and is not zero. *)
Lemma nyquist_nonzero (fs : Z) :
  0 < fs < 2 ^ 63 ->
  exists nyq : float,
    Py.mul_float_int 0.5 fs = Ok nyq /\ (nyq =? 0)%float = false.
Proof.
  intros H. unfold Py.mul_float_int.
  rewrite float_of_int_in_range.
  2:{ apply Z.lt_trans with (2 ^ 63); [lia | reflexivity]. }
  cbn [bind]. eexists. split; [reflexivity | ].
  rewrite FloatAxioms.eqb_spec, FloatAxioms.mul_spec, Prim2SF_half, Prim2SF_zero.
  rewrite Prim2SF_of_Z by lia.
  destruct fs as [ | p | p]; try lia.
  apply SFmul_half_nonzero, binary_normalize_positive.
Qed.

(** *** Signs *)

Lemma binary_round_aux_opp (m e : Z) (l : location) :
  binary_round_aux prec emax true m e l
  = SFopp (binary_round_aux prec emax false m e l).
Proof.
  unfold binary_round_aux.
  destruct (shr_fexp prec emax m e l) as [mrs1 e1].
  destruct (shr_fexp prec emax _ e1 loc_Exact) as [mrs2 e2].
  destruct (shr_m mrs2); [reflexivity | | reflexivity].
  now destruct (e2 <=? emax - prec).
Qed.

Lemma binary_round_opp (p : positive) (e : Z) :
  binary_round prec emax true p e = SFopp (binary_round prec emax false p e).
Proof.
  unfold binary_round. destruct (shl_align p e _) as [mz ez].
  apply binary_round_aux_opp.
Qed.

(** The float nearest to a negative integer above [-2^63] is the opposite
    of the float nearest to its absolute value. *)
Lemma Prim2SF_of_Z_neg (p : positive) :
  Zpos p < 2 ^ 63 ->
  Prim2SF (Py.of_Z (Zneg p)) = SFopp (binary_normalize prec emax (Zpos p) 0 false).
Proof.
  intros H. unfold Py.of_Z. cbn [binary_normalize].
  rewrite binary_round_opp.
  change (binary_round prec emax false p 0)
    with (binary_normalize prec emax (Zpos p) 0 false).
  rewrite <- (Prim2SF_of_Z (Zpos p)) by lia.
  rewrite <- FloatAxioms.opp_spec, SF2Prim_Prim2SF. reflexivity.
Qed.

(** Half of a value of magnitude at least one keeps its sign and is not
    zero. *)
Lemma SFmul_half_signed (s : bool) (y : spec_float) :
  at_least s 1 y ->
  at_least s 0 (SF64mul (S754_finite false 4503599627370496 (-53)) y).
Proof.
  intros [ | m e H]; [constructor | ].
  unfold SF64mul, SFmul. cbn [xorb].
  pose proof (binary_round_aux_magnitude s (4503599627370496 * m) (-53 + e)
                loc_Exact) as M.
  assert (D : 52 + Zpos (digits2_pos m) <= Zpos (digits2_pos (4503599627370496 * m))).
  { pose proof (digits2_pos_lower m) as L.
    pose proof (digits2_pos_ge (4503599627370496 * m)
                  (52 + (Zpos (digits2_pos m) - 1))) as G.
    rewrite Z.pow_add_r in G by lia.
    change (2 ^ 52) with 4503599627370496 in G.
    rewrite Pos2Z.inj_mul in G. nia. }
  change (SpecFloat.emin prec emax) with (-1074) in M.
  specialize (M ltac:(lia)).
  destruct M; constructor; lia.
Qed.

Lemma SFopp_at_least (g : Z) (y : spec_float) :
  at_least false g y -> at_least true g (SFopp y).
Proof. intros [ | m e H]; now constructor. Qed.

(** A positive finite number divided by a negative value. *)
Lemma SFdiv_positive_by_negative (mx : positive) (ex g : Z) (y : spec_float) :
  at_least true g y ->
  signed_like true (SF64div (S754_finite false mx ex) y).
Proof.
  intros [ | m e _]; [constructor | ].
  unfold SF64div, SFdiv.
  pose proof (SFdiv_core_binary_nonneg mx m ex e) as H.
  destruct (SFdiv_core_binary prec emax (Zpos mx) ex (Zpos m) e) as [[mz ez] lz].
  cbn [fst] in H. cbn [xorb]. now apply binary_round_aux_signed.
Qed.

Lemma ltb_zero_negative (y : spec_float) :
  signed_like true y -> SFltb (S754_zero false) y = false.
Proof. intros [ | | m e]; reflexivity. Qed.

Lemma eqb_zero_at_least (s : bool) (g : Z) (y : spec_float) :
  at_least s g y -> SFeqb y (S754_zero false) = false.
Proof. intros [ | m e _]; destruct s; reflexivity. Qed.

(** *** Rounding gives a canonical mantissa *)

Lemma digits2_pos_unique (q : positive) (k : Z) :
  2 ^ (k - 1) <= Zpos q < 2 ^ k -> Zpos (digits2_pos q) = k.
Proof.
  intros [L U].
  pose proof (digits2_pos_ge q (k - 1) L) as G.
  pose proof (digits2_pos_lower q) as L'.
  assert (H : 2 ^ (Zpos (digits2_pos q) - 1) < 2 ^ k) by lia.
  destruct (Z.le_gt_cases 0 k) as [Hk | Hk].
  - apply Z.pow_lt_mono_r_iff in H; lia.
  - rewrite (Z.pow_neg_r 2 k) in U by lia. lia.
Qed.

Lemma fexp_64 (x : Z) : fexp prec emax x = Z.max (x - 53) (-1074).
Proof. reflexivity. Qed.

(** Aligning a mantissa that has at least the digits its exponent asks
    for: the exponent becomes the canonical one, and the mantissa is zero
    (at the least exponent) or keeps the magnitude. *)
Lemma shr_fexp_aligned (p : positive) (e : Z) (l : location) :
  e <= fexp prec emax (Zpos (digits2_pos p) + e) ->
  exists mrs,
    shr_fexp prec emax (Zpos p) e l
    = (mrs, fexp prec emax (Zpos (digits2_pos p) + e))
    /\ ((shr_m mrs = 0 /\ fexp prec emax (Zpos (digits2_pos p) + e) = -1074)
        \/ exists q, shr_m mrs = Zpos q
             /\ Zpos (digits2_pos q) + fexp prec emax (Zpos (digits2_pos p) + e)
                = Zpos (digits2_pos p) + e).
Proof.
  intros H. unfold shr_fexp, shr. cbn [Zdigits2].
  rewrite fexp_64 in *.
  set (d := Zpos (digits2_pos p)) in *.
  destruct (Z.max (d + e - 53) (-1074) - e) as [ | k | k] eqn:En; [ | | lia].
  - eexists. split; [f_equal; lia | ].
    right. exists p. rewrite shr_record_of_loc_m. split; [reflexivity | fold d; lia].
  - eexists. split; [f_equal; lia | ].
    rewrite iter_shr_1_div by (rewrite shr_record_of_loc_m; lia).
    rewrite shr_record_of_loc_m.
    pose proof (digits2_pos_lower p) as L. fold d in L.
    pose proof (digits2_pos_bound p) as U. fold d in U.
    assert (P : 0 < 2 ^ Zpos k) by (apply Z.pow_pos_nonneg; lia).
    destruct (Z.le_gt_cases d (Zpos k)) as [Hk | Hk].
    + left. split; [ | lia].
      apply Z.div_small. split; [lia | ].
      apply Z.lt_le_trans with (2 ^ d); [exact U | ].
      apply Z.pow_le_mono_r; lia.
    + right.
      assert (Q : 2 ^ (d - 1 - Zpos k) <= Zpos p / 2 ^ Zpos k).
      { apply Z.div_le_lower_bound; [exact P | ].
        rewrite <- Z.pow_add_r by lia.
        replace (Zpos k + (d - 1 - Zpos k)) with (d - 1) by lia. exact L. }
      assert (R : Zpos p / 2 ^ Zpos k < 2 ^ (d - Zpos k)).
      { apply Z.div_lt_upper_bound; [exact P | ].
        rewrite <- Z.pow_add_r by lia.
        replace (Zpos k + (d - Zpos k)) with d by lia. exact U. }
      assert (P' : 0 < 2 ^ (d - 1 - Zpos k)) by (apply Z.pow_pos_nonneg; lia).
      destruct (Zpos p / 2 ^ Zpos k) as [ | q | q] eqn:Eq; try lia.
      exists q. split; [reflexivity | ].
      rewrite (digits2_pos_unique q (d - Zpos k)); [lia | ].
      replace (d - Zpos k - 1) with (d - 1 - Zpos k) by lia. lia.
Qed.

Lemma shr_fexp_zero (e : Z) (l : location) :
  shr_m (fst (shr_fexp prec emax 0 e l)) = 0.
Proof.
  unfold shr_fexp, shr.
  destruct (fexp prec emax (Zdigits2 0 + e) - e) as [ | k | k]; cbn [fst];
    try apply shr_record_of_loc_m.
  rewrite iter_shr_1_div by (rewrite shr_record_of_loc_m; lia).
  rewrite shr_record_of_loc_m. apply Z.div_0_l.
  apply Z.pow_nonzero; lia.
Qed.

(** The result of rounding is a valid binary64 value. *)
Lemma binary_round_aux_valid (s : bool) (p : positive) (e : Z) (l : location) :
  e <= fexp prec emax (Zpos (digits2_pos p) + e) ->
  SpecFloat.valid_binary prec emax (binary_round_aux prec emax s (Zpos p) e l) = true.
Proof.
  intros H. unfold binary_round_aux.
  destruct (shr_fexp_aligned p e l H) as (mrs1 & -> & H1).
  set (e1 := fexp prec emax (Zpos (digits2_pos p) + e)) in *.
  pose proof (round_nearest_even_ge (shr_m mrs1) (loc_of_shr_record mrs1)) as G.
  set (m2 := round_nearest_even (shr_m mrs1) (loc_of_shr_record mrs1)) in *.
  destruct m2 as [ | q2 | q2] eqn:E2.
  - pose proof (shr_fexp_zero e1 loc_Exact) as Z0.
    destruct (shr_fexp prec emax 0 e1 loc_Exact) as [mrs2 e2].
    cbn [fst] in Z0. rewrite Z0. reflexivity.
  - assert (H2 : e1 <= fexp prec emax (Zpos (digits2_pos q2) + e1)).
    { destruct H1 as [[_ E] | (q & Eq & D)].
      - rewrite ?fexp_64 in *. lia.
      - rewrite Eq in G. pose proof (digits2_pos_le q q2 G) as M.
        subst e1. rewrite ?fexp_64 in *. lia. }
    destruct (shr_fexp_aligned q2 e1 loc_Exact H2) as (mrs2 & -> & H3).
    destruct H3 as [[-> _] | (q3 & -> & D3)]; [reflexivity | ].
    destruct (Z.leb_spec (fexp prec emax (Zpos (digits2_pos q2) + e1)) (emax - prec))
      as [B | B]; [ | reflexivity].
    cbn [SpecFloat.valid_binary]. unfold bounded, canonical_mantissa.
    rewrite D3. rewrite Z.eqb_refl. cbn [andb].
    apply Z.leb_le. exact B.
  - destruct H1 as [[E _] | (q & Eq & _)]; rewrite ?E, ?Eq in G; lia.
Qed.

Lemma binary_round_valid (s : bool) (p : positive) (e : Z) :
  SpecFloat.valid_binary prec emax (binary_round prec emax s p e) = true.
Proof.
  unfold binary_round, shl_align.
  set (d := Zpos (digits2_pos p)).
  destruct (fexp prec emax (d + e) - e) as [ | k | k] eqn:Ek.
  - apply binary_round_aux_valid. fold d. lia.
  - apply binary_round_aux_valid. fold d. lia.
  - apply binary_round_aux_valid.
    rewrite digits2_pos_iter_xO. fold d.
    replace (d + Zpos k + fexp prec emax (d + e)) with (d + e) by lia. lia.
Qed.

Lemma binary_normalize_valid (z e : Z) (szero : bool) :
  SpecFloat.valid_binary prec emax (binary_normalize prec emax z e szero) = true.
Proof.
  destruct z as [ | p | p]; cbn [binary_normalize];
    [reflexivity | apply binary_round_valid | apply binary_round_valid].
Qed.

(** The conversion of any integer is the rounded integer. *)
Lemma Prim2SF_of_int (z : Z) :
  Prim2SF (Py.of_Z z) = binary_normalize prec emax z 0 false.
Proof.
  unfold Py.of_Z. apply Prim2SF_SF2Prim, binary_normalize_valid.
Qed.

(** *** Rates of either sign *)

(** The float nearest to a non-zero integer has the sign of the integer
    and magnitude at least one. *)
Lemma binary_normalize_nonzero (fs : Z) :
  fs <> 0 ->
  at_least (fs <? 0) 1 (binary_normalize prec emax fs 0 false).
Proof.
  intros H. destruct fs as [ | p | p]; [contradiction | | ].
  - apply binary_normalize_positive.
  - cbn [binary_normalize]. rewrite binary_round_opp.
    apply SFopp_at_least. exact (binary_normalize_positive p).
Qed.

(** For every rate other than zero that converts to a float, the Nyquist
    frequency is computed, has the sign of the rate and is not zero. *)
Lemma nyquist_of_nonzero (fs : Z) :
  fs <> 0 ->
  Z.abs fs < Py.int_max_float ->
  Py.mul_float_int 0.5 fs = Ok (0.5 * Py.of_Z fs)%float
  /\ at_least (fs <? 0) 0 (Prim2SF (0.5 * Py.of_Z fs)%float)
  /\ (0.5 * Py.of_Z fs =? 0)%float = false.
Proof.
  intros H0 Hr.
  assert (N : at_least (fs <? 0) 0 (Prim2SF (0.5 * Py.of_Z fs)%float)).
  { rewrite FloatAxioms.mul_spec, Prim2SF_half, Prim2SF_of_int.
    apply SFmul_half_signed, binary_normalize_nonzero, H0. }
  split; [ | split].
  - unfold Py.mul_float_int. now rewrite (float_of_int_in_range fs Hr).
  - exact N.
  - rewrite FloatAxioms.eqb_spec, Prim2SF_zero. exact (eqb_zero_at_least _ _ _ N).
Qed.

(** A band edge of the table divided by a negative Nyquist frequency is
    not above zero. *)
Lemma negative_nyquist_rejected (signal_type : string) (lowcut highcut nyq : float) :
  band_edges signal_type = Ok (lowcut, highcut) ->
  at_least true 0 (Prim2SF nyq) ->
  Py.chain_lt (lowcut / nyq) (highcut / nyq) = false.
Proof.
  intros Hb N.
  assert (L : (0 <? lowcut / nyq)%float = false).
  { rewrite FloatAxioms.ltb_spec, FloatAxioms.div_spec, Prim2SF_zero.
    apply ltb_zero_negative.
    destruct (band_edges_cases signal_type)
      as [[_ B] | [[_ B] | (_ & _ & B)]];
      rewrite B in Hb; try discriminate; injection Hb as <- <-.
    - change (Prim2SF 0.5) with (S754_finite false 4503599627370496 (-53)).
      exact (SFdiv_positive_by_negative _ _ _ _ N).
    - change (Prim2SF 1.0) with (S754_finite false 4503599627370496 (-52)).
      exact (SFdiv_positive_by_negative _ _ _ _ N). }
  unfold Py.chain_lt. rewrite L. reflexivity.
Qed.

(** Below twice the upper band edge the check fails, for negative rates
    as for positive ones. *)
Lemma below_twice_highcut_rejected (fs : Z) (signal_type : string)
    (lowcut highcut : float) (twice_highcut : Z) :
  band_edges signal_type = Ok (lowcut, highcut) ->
  fs <> 0 ->
  Z.abs fs < Py.int_max_float ->
  Py.round (2 * highcut)%float = Ok twice_highcut ->
  fs < twice_highcut ->
  Py.chain_lt (lowcut / (0.5 * Py.of_Z fs)) (highcut / (0.5 * Py.of_Z fs)) = false.
Proof.
  intros Hb H0 Hr Ht Hlt.
  destruct (Z.ltb_spec fs 0) as [Hneg | Hpos].
  - destruct (nyquist_of_nonzero fs H0 Hr) as (_ & N & _).
    apply Z.ltb_lt in Hneg. rewrite Hneg in N.
    exact (negative_nyquist_rejected signal_type _ _ _ Hb N).
  - destruct (band_edges_cases signal_type)
      as [[_ B] | [[_ B] | (_ & _ & B)]];
      rewrite B in Hb; try discriminate;
      injection Hb as <- <-; vm_compute in Ht; injection Ht as <-.
    + apply (band_rejected_chain _ _ _ fs eq_refl).
      apply (proj1 (forallb_forall _ _) ecg_rejected_below_90).
      apply in_positives_up_to. lia.
    + apply (band_rejected_chain _ _ _ fs eq_refl).
      apply (proj1 (forallb_forall _ _) eeg_rejected_below_60).
      apply in_positives_up_to. lia.
Qed.

(** C2 (as the code has it): for a signal type of the table and every
    sampling rate other than zero that converts to a float,
    [filter_signal] computes the Nyquist frequency [nyq = 0.5 * fs] and
    checks [0 < lowcut/nyq < highcut/nyq < 1]; when the check fails it
    raises the invalid-range [ValueError] carrying [fs], [lowcut] and
    [highcut]; when it passes the normalised band goes on to [butter] and
    [filtfilt]; and the check fails for every such rate below twice the
    upper band edge, negative rates included.  A rate too large for a
    float raises [OverflowError] at [0.5 * fs]; the estimation never
    returns such a rate, so in the pipeline of [main] every estimated rate
    other than zero is decided by the check. *)
Theorem filter_signal_range_validation :
  forall (coefficients : Type)
         (butter : Z -> float -> float -> result coefficients)
         (filtfilt : coefficients -> list float -> result (list float))
         (data : list float) (fs : Z) (signal_type : string) (order : Z)
         (lowcut highcut : float),
    band_edges signal_type = Ok (lowcut, highcut) ->
    let nyq := (0.5 * Py.of_Z fs)%float in
    let low := (lowcut / nyq)%float in
    let high := (highcut / nyq)%float in
    (fs <> 0 -> Z.abs fs < Py.int_max_float ->
       (Py.chain_lt low high = false ->
          filter_signal butter filtfilt data fs signal_type order
          = Raise (invalid_filter_range fs lowcut highcut))
       /\ (Py.chain_lt low high = true ->
             filter_signal butter filtfilt data fs signal_type order
             = (ba <- butter order low high ;; filtfilt ba data))
       /\ (forall twice_highcut : Z,
             Py.round (2 * highcut)%float = Ok twice_highcut ->
             fs < twice_highcut ->
             Py.chain_lt low high = false))
    /\ (Py.int_max_float <= Z.abs fs ->
          filter_signal butter filtfilt data fs signal_type order
          = Raise (OverflowError (Text "int too large to convert to float")))
    /\ (forall time_sec : list float,
          estimate_fs time_sec = Ok fs ->
          fs <> 0 ->
          main_pipeline butter filtfilt time_sec data signal_type
          = if Py.chain_lt low high
            then ba <- butter default_order low high ;;
                 filtered_signal <- filtfilt ba data ;;
                 Ok (fs, filtered_signal)
            else Raise (invalid_filter_range fs lowcut highcut)).
Proof.
  intros coefficients butter filtfilt data fs signal_type order
         lowcut highcut Hb nyq low high.
  assert (V : forall order', fs <> 0 -> Z.abs fs < Py.int_max_float ->
            filter_signal butter filtfilt data fs signal_type order'
            = if Py.chain_lt low high
              then ba <- butter order' low high ;; filtfilt ba data
              else Raise (invalid_filter_range fs lowcut highcut)).
  { intros order' H0 Hr.
    destruct (nyquist_of_nonzero fs H0 Hr) as (Hn & _ & Hz).
    exact (filter_signal_validated coefficients butter filtfilt data fs
             signal_type order' lowcut highcut nyq Hb Hn Hz). }
  split; [ | split].
  - intros H0 Hr. split; [ | split].
    + intros C. rewrite (V order H0 Hr), C. reflexivity.
    + intros C. rewrite (V order H0 Hr), C. reflexivity.
    + intros twice_highcut Ht Hlt.
      exact (below_twice_highcut_rejected fs signal_type lowcut highcut
               twice_highcut Hb H0 Hr Ht Hlt).
  - intros Hbig. unfold filter_signal, Py.mul_float_int, Py.float_of_int.
    destruct (Z.ltb_spec (Z.abs fs) Py.int_max_float); [lia | reflexivity].
  - intros time_sec E H0. unfold main_pipeline. rewrite E. cbn [bind].
    rewrite (V default_order H0 (round_in_float_range _ _ E)).
    destruct (Py.chain_lt low high); [ | reflexivity].
    cbn [bind]. destruct (butter default_order low high) as [ba | e]; reflexivity.
Qed.

Lemma filter_signal_range_validation_witness :
  (band_edges "ecg" = Ok (0.5, 45.0)%float
   /\ 100 <> 0
   /\ Z.abs 100 < Py.int_max_float
   /\ Py.chain_lt (0.5 / (0.5 * Py.of_Z 100)) (45.0 / (0.5 * Py.of_Z 100)) = true)
  /\ filter_signal butter_args filtfilt_id [1; 2; 3]%float 100 "ecg" default_order
     = Ok [1; 2; 3]%float.
Proof.
  split; [split; [reflexivity | split; [lia | split; reflexivity]] | ].
  rewrite (proj1 (proj2
    (proj1 (filter_signal_range_validation _ butter_args filtfilt_id
              [1; 2; 3]%float 100 "ecg" default_order 0.5%float 45.0%float
              eq_refl)
       ltac:(lia) eq_refl)) eq_refl).
  reflexivity.
Defined.

(** C2, the claim as stated fails at a rate of zero, which is below twice
    the upper band edge and is a rate the estimation returns (timestamps
    3 s apart): the division by the Nyquist frequency raises
    [ZeroDivisionError] before the range check is reached. *)
Lemma filter_signal_zero_rate_counterexample :
  estimate_fs [0; 3; 6]%float = Ok 0
  /\ Py.round (2 * 45.0)%float = Ok 90
  /\ 0 < 90
  /\ filter_signal butter_args filtfilt_id [1; 2; 3]%float 0 "ecg" default_order
     = Raise (ZeroDivisionError (Text "float division by zero"))
  /\ filter_signal butter_args filtfilt_id [1; 2; 3]%float 0 "ecg" default_order
     <> Raise (invalid_filter_range 0 0.5 45.0)
  /\ main_pipeline butter_args filtfilt_id [0; 3; 6]%float [1; 2; 3]%float "ecg"
     = Raise (ZeroDivisionError (Text "float division by zero")).
Proof.
  repeat split; try reflexivity; try lia. discriminate.
Qed.

(** The two scenarios of the range check. *)
Example ecg_at_100_hz :
  filter_signal butter_args filtfilt_id [1; 2; 3]%float 100 "ecg" default_order
  = (ba <- butter_args 4 0.01%float 0.9%float ;; filtfilt_id ba [1; 2; 3]%float).
Proof. reflexivity. Qed.

Example ecg_at_50_hz :
  forall (coefficients : Type) butter filtfilt data,
    @filter_signal coefficients butter filtfilt data 50 "ecg" default_order
    = Raise (ValueError (InvalidFilterRange 50 0.5 45.0)).
Proof. reflexivity. Qed.

(** A rate of zero is not rejected by the range check: the division by
    the Nyquist frequency raises first. *)
Example ecg_at_0_hz :
  forall (coefficients : Type) butter filtfilt data,
    @filter_signal coefficients butter filtfilt data 0 "ecg" default_order
    = Raise (ZeroDivisionError (Text "float division by zero")).
Proof. reflexivity. Qed.

Section Presets.

Variable coefficients : Type.
Variable butter : Z -> float -> float -> result coefficients.
Variable filtfilt : coefficients -> list float -> result (list float).

(** [filter_signal] uses [butter] at the order it is given only. *)
Lemma filter_signal_butter_ext (butter' : Z -> float -> float -> result coefficients)
    (data : list float) (fs : Z) (signal_type : string) (order : Z) :
  (forall low high, butter' order low high = butter order low high) ->
  filter_signal butter' filtfilt data fs signal_type order
  = filter_signal butter filtfilt data fs signal_type order.
Proof.
  intros H. unfold filter_signal.
  destruct (Py.mul_float_int 0.5 fs) as [nyq | e]; [cbn [bind] | reflexivity].
  destruct (band_edges signal_type) as [[lowcut highcut] | e];
    [cbn [bind] | reflexivity].
  destruct (Py.truediv lowcut nyq) as [low | e]; [cbn [bind] | reflexivity].
  destruct (Py.truediv highcut nyq) as [high | e]; [cbn [bind] | reflexivity].
  now rewrite H.
Qed.

(** C5 (as the code has it): the band edges are fixed by the signal type,
    with exactly two entries: ECG is (0.5, 45.0) and EEG is (1.0, 30.0),
    and every call of [filter_signal] on one of the two types works with
    these edges.  The order is not in the table: [filter_signal] hands
    [butter] the order its caller gave.  [main] gives none, so its
    pipeline reaches [butter] at the default order 4 with the band edges of
    the table, and at no other order: replacing [butter] by any function
    that agrees with it at order 4 changes nothing. *)
Theorem preset_table :
  band_edges "ecg" = Ok (0.5, 45.0)%float
  /\ band_edges "eeg" = Ok (1.0, 30.0)%float
  /\ (forall signal_type lowcut highcut,
        band_edges signal_type = Ok (lowcut, highcut) ->
        (signal_type = "ecg"%string /\ lowcut = 0.5%float /\ highcut = 45.0%float)
        \/ (signal_type = "eeg"%string /\ lowcut = 1.0%float /\ highcut = 30.0%float))
  /\ (forall data fs order,
        filter_signal butter filtfilt data fs "ecg" order
        = (nyq <- Py.mul_float_int 0.5 fs ;;
           low <- Py.truediv 0.5 nyq ;;
           high <- Py.truediv 45.0 nyq ;;
           if Py.chain_lt low high
           then ba <- butter order low high ;; filtfilt ba data
           else Raise (invalid_filter_range fs 0.5 45.0)))
  /\ (forall data fs order,
        filter_signal butter filtfilt data fs "eeg" order
        = (nyq <- Py.mul_float_int 0.5 fs ;;
           low <- Py.truediv 1.0 nyq ;;
           high <- Py.truediv 30.0 nyq ;;
           if Py.chain_lt low high
           then ba <- butter order low high ;; filtfilt ba data
           else Raise (invalid_filter_range fs 1.0 30.0)))
  /\ (forall time_sec signal,
        main_pipeline butter filtfilt time_sec signal "ecg"
        = (fs <- estimate_fs time_sec ;;
           nyq <- Py.mul_float_int 0.5 fs ;;
           low <- Py.truediv 0.5 nyq ;;
           high <- Py.truediv 45.0 nyq ;;
           if Py.chain_lt low high
           then ba <- butter 4 low high ;;
                filtered_signal <- filtfilt ba signal ;;
                Ok (fs, filtered_signal)
           else Raise (invalid_filter_range fs 0.5 45.0)))
  /\ (forall time_sec signal,
        main_pipeline butter filtfilt time_sec signal "eeg"
        = (fs <- estimate_fs time_sec ;;
           nyq <- Py.mul_float_int 0.5 fs ;;
           low <- Py.truediv 1.0 nyq ;;
           high <- Py.truediv 30.0 nyq ;;
           if Py.chain_lt low high
           then ba <- butter 4 low high ;;
                filtered_signal <- filtfilt ba signal ;;
                Ok (fs, filtered_signal)
           else Raise (invalid_filter_range fs 1.0 30.0)))
  /\ (forall (butter' : Z -> float -> float -> result coefficients)
             time_sec signal signal_type,
        (forall low high, butter' 4 low high = butter 4 low high) ->
        main_pipeline butter' filtfilt time_sec signal signal_type
        = main_pipeline butter filtfilt time_sec signal signal_type).
Proof.
  assert (F : forall data fs order lowcut highcut signal_type,
            band_edges signal_type = Ok (lowcut, highcut) ->
            filter_signal butter filtfilt data fs signal_type order
            = (nyq <- Py.mul_float_int 0.5 fs ;;
               low <- Py.truediv lowcut nyq ;;
               high <- Py.truediv highcut nyq ;;
               if Py.chain_lt low high
               then ba <- butter order low high ;; filtfilt ba data
               else Raise (invalid_filter_range fs lowcut highcut))).
  { intros data fs order lowcut highcut signal_type Hb. unfold filter_signal.
    destruct (Py.mul_float_int 0.5 fs) as [nyq | e]; [cbn [bind] | reflexivity].
    rewrite Hb. cbn [bind].
    destruct (Py.truediv lowcut nyq) as [low | e]; [cbn [bind] | reflexivity].
    destruct (Py.truediv highcut nyq) as [high | e]; [cbn [bind] | reflexivity].
    now destruct (Py.chain_lt low high). }
  assert (P : forall time_sec signal lowcut highcut signal_type,
            band_edges signal_type = Ok (lowcut, highcut) ->
            main_pipeline butter filtfilt time_sec signal signal_type
            = (fs <- estimate_fs time_sec ;;
               nyq <- Py.mul_float_int 0.5 fs ;;
               low <- Py.truediv lowcut nyq ;;
               high <- Py.truediv highcut nyq ;;
               if Py.chain_lt low high
               then ba <- butter 4 low high ;;
                    filtered_signal <- filtfilt ba signal ;;
                    Ok (fs, filtered_signal)
               else Raise (invalid_filter_range fs lowcut highcut))).
  { intros time_sec signal lowcut highcut signal_type Hb. unfold main_pipeline.
    destruct (estimate_fs time_sec) as [fs | e]; [cbn [bind] | reflexivity].
    rewrite (F signal fs default_order lowcut highcut signal_type Hb).
    destruct (Py.mul_float_int 0.5 fs) as [nyq | e]; [cbn [bind] | reflexivity].
    destruct (Py.truediv lowcut nyq) as [low | e]; [cbn [bind] | reflexivity].
    destruct (Py.truediv highcut nyq) as [high | e]; [cbn [bind] | reflexivity].
    destruct (Py.chain_lt low high); [ | reflexivity].
    change default_order with 4.
    destruct (butter 4 low high) as [ba | e]; reflexivity. }
  split; [reflexivity | ]. split; [reflexivity | ].
  split; [ | split; [ | split; [ | split; [ | split]]]].
  - intros signal_type lowcut highcut H.
    destruct (band_edges_cases signal_type)
      as [[-> B] | [[-> B] | (_ & _ & B)]];
      rewrite B in H; try discriminate; injection H as <- <-.
    + left. now repeat split.
    + right. now repeat split.
  - intros data fs order. now apply F.
  - intros data fs order. now apply F.
  - intros time_sec signal. now apply P.
  - intros time_sec signal. now apply P.
  - intros butter' time_sec signal signal_type H. unfold main_pipeline.
    destruct (estimate_fs time_sec) as [fs | e]; [cbn [bind] | reflexivity].
    now rewrite (filter_signal_butter_ext butter' signal fs signal_type
                   default_order H).
Qed.

(** C6: a signal type other than ['ecg'] and ['eeg'] makes [filter_signal]
    raise the unsupported-type [ValueError], whatever [butter] and
    [filtfilt] would do and whether or not the rate would pass the range
    check; the only step before the selection is [0.5 * fs], which needs
    [fs] to convert to a float, as every rate returned by the estimation
    does, so in the pipeline of [main] an estimated rate always leads to
    this error. *)
Theorem filter_signal_unsupported_type :
  forall (data : list float) (fs : Z) (signal_type : string) (order : Z),
    signal_type <> "ecg"%string ->
    signal_type <> "eeg"%string ->
    (Z.abs fs < Py.int_max_float ->
       filter_signal butter filtfilt data fs signal_type order
       = Raise unsupported_signal_type)
    /\ (forall time_sec,
          estimate_fs time_sec = Ok fs ->
          main_pipeline butter filtfilt time_sec data signal_type
          = Raise unsupported_signal_type).
Proof.
  intros data fs signal_type order H1 H2. split.
  - intros Hfs. now apply filter_signal_unsupported.
  - intros time_sec E. unfold main_pipeline. rewrite E. cbn [bind].
    rewrite filter_signal_unsupported;
      [reflexivity | exact (round_in_float_range _ _ E) | exact H1 | exact H2].
Qed.

(** C10: the selection compares [signal_type] with the two lower-case
    strings exactly: it yields band edges for ['ecg'] and ['eeg'] and for
    nothing else, and every other string, the upper-case spellings
    included, makes [filter_signal] raise the unsupported-type
    [ValueError]. *)
Theorem signal_type_case_sensitive :
  forall (data : list float) (fs : Z) (order : Z),
    Z.abs fs < Py.int_max_float ->
    (forall signal_type,
       (exists edges, band_edges signal_type = Ok edges)
       <-> (signal_type = "ecg"%string \/ signal_type = "eeg"%string))
    /\ (forall signal_type,
          signal_type <> "ecg"%string ->
          signal_type <> "eeg"%string ->
          filter_signal butter filtfilt data fs signal_type order
          = Raise unsupported_signal_type)
    /\ filter_signal butter filtfilt data fs "ECG" order
       = Raise unsupported_signal_type
    /\ filter_signal butter filtfilt data fs "EEG" order
       = Raise unsupported_signal_type.
Proof.
  intros data fs order Hfs. split; [ | split; [ | split]].
  - intros signal_type. split.
    + intros [edges E].
      destruct (band_edges_cases signal_type)
        as [[-> _] | [[-> _] | (_ & _ & B)]];
        [now left | now right | ].
      rewrite B in E. discriminate.
    + intros [-> | ->]; eexists; reflexivity.
  - intros signal_type H1 H2. now apply filter_signal_unsupported.
  - apply filter_signal_unsupported; [exact Hfs | discriminate | discriminate].
  - apply filter_signal_unsupported; [exact Hfs | discriminate | discriminate].
Qed.

End Presets.

Lemma preset_table_witness :
  main_pipeline butter_args filtfilt_order [0.0; 0.01; 0.02; 0.03]%float
    [1; 2; 3]%float "ecg"
  = Ok (100, [4%float]).
Proof.
  rewrite (proj1 (proj2 (proj2 (proj2 (proj2 (proj2
    (preset_table _ butter_args filtfilt_order))))))
    [0.0; 0.01; 0.02; 0.03]%float [1; 2; 3]%float).
  reflexivity.
Defined.

(** C5, the claim as stated fails for the order: it is a parameter of
    [filter_signal], not a constant of the table.  Called at order 2 for
    ['ecg'], [filter_signal] has [butter] design at order 2, with the band
    edges of the table. *)
Lemma filter_signal_order_counterexample :
  filter_signal butter_args filtfilt_id [1; 2; 3]%float 100 "ecg" 2
  = (ba <- butter_args 2 0.01%float 0.9%float ;; filtfilt_id ba [1; 2; 3]%float)
  /\ filter_signal butter_args filtfilt_order [1; 2; 3]%float 100 "ecg" 2
     = Ok [2%float]
  /\ filter_signal butter_args filtfilt_order [1; 2; 3]%float 100 "ecg" 2
     <> filter_signal butter_args filtfilt_order [1; 2; 3]%float 100 "ecg" 4.
Proof.
  repeat split. vm_compute. discriminate.
Qed.

Lemma filter_signal_unsupported_type_witness :
  ("emg" <> "ecg" /\ "emg" <> "eeg")%string
  /\ Z.abs 0 < Py.int_max_float
  /\ filter_signal butter_args filtfilt_id [1; 2; 3]%float 0 "emg" default_order
     = Raise unsupported_signal_type.
Proof.
  split; [split; discriminate | ].
  split; [reflexivity | ].
  apply (proj1 (filter_signal_unsupported_type _ butter_args filtfilt_id
                  [1; 2; 3]%float 0 "emg"%string default_order
                  ltac:(discriminate) ltac:(discriminate))).
  reflexivity.
Defined.

Lemma signal_type_case_sensitive_witness :
  Z.abs 250 < Py.int_max_float
  /\ filter_signal butter_args filtfilt_id [1; 2; 3]%float 250 "ECG" default_order
     = Raise unsupported_signal_type.
Proof.
  split; [reflexivity | ].
  apply (proj1 (proj2 (proj2
    (signal_type_case_sensitive _ butter_args filtfilt_id
       [1; 2; 3]%float 250 default_order eq_refl)))).
Defined.

(** ** The estimation on grids of constant spacing *)

Lemma holds_from_spec (p : Z -> bool) (count : nat) :
  forall first z,
    holds_from p first count = true ->
    first <= z < first + Z.of_nat count -> p z = true.
Proof.
  induction count as [ | count IH]; intros first z H Hz; [lia | ].
  cbn [holds_from] in H. apply andb_prop in H. destruct H as [H1 H2].
  destruct (Z.eq_dec z first) as [-> | N]; [exact H1 | ].
  apply (IH (first + 1)); [exact H2 | lia].
Qed.




















(** The scenario timestamps lie on the grid of 0.01 s in the same sense;
    their binary64 differences are not all equal. *)
Example scenario_differences :
  Np.diff [0.0; 0.01; 0.02; 0.03]%float
  = [0.01; 0.01; 0.0099999999999999985]%float.
Proof. reflexivity. Qed.

Example scenario_on_grid :
  [0.0; 0.01; 0.02; 0.03]%float = decimal_grid 1 100 4.
Proof. reflexivity. Qed.

(** * Further properties of the script *)

(** ** Strings *)

Lemma count_remove_same (c : ascii) (s : string) :
  Str.count_char c (Str.remove_char c s) = O.
Proof.
  induction s as [ | d rest IH]; [reflexivity | ]. cbn.
  destruct (Ascii.eqb d c) eqn:E; [exact IH | ]. cbn. now rewrite E.
Qed.

Lemma count_remove_other (c d : ascii) (s : string) :
  c <> d -> Str.count_char d (Str.remove_char c s) = Str.count_char d s.
Proof.
  intros H. induction s as [ | a rest IH]; [reflexivity | ]. cbn.
  destruct (Ascii.eqb_spec a c) as [-> | Hc].
  - destruct (Ascii.eqb_spec c d); [contradiction | exact IH].
  - cbn. now rewrite IH.
Qed.

Lemma remove_absent (c : ascii) (s : string) :
  Str.count_char c s = O -> Str.remove_char c s = s.
Proof.
  induction s as [ | d rest IH]; [reflexivity | ]. cbn.
  destruct (Ascii.eqb d c); [discriminate | ].
  intros H. now rewrite IH.
Qed.

Lemma count_append (c : ascii) (s t : string) :
  Str.count_char c (s ++ t) = (Str.count_char c s + Str.count_char c t)%nat.
Proof.
  induction s as [ | d rest IH]; [reflexivity | ]. cbn.
  destruct (Ascii.eqb d c); rewrite IH; reflexivity.
Qed.

(** [endswith] holds exactly of the strings that are something followed by
    the suffix. *)
Lemma endswith_iff (s suffix : string) :
  Str.endswith s suffix = true <-> exists p, s = (p ++ suffix)%string.
Proof.
  induction s as [ | c rest IH]; cbn [Str.endswith].
  - rewrite orb_false_r. split.
    + intros H. apply String.eqb_eq in H. exists ""%string. exact H.
    + intros [p H]. apply String.eqb_eq.
      destruct p; [exact H | discriminate].
  - rewrite orb_true_iff, IH. split.
    + intros [H | [p H]].
      * apply String.eqb_eq in H. exists ""%string. exact H.
      * exists (String c p). cbn. now rewrite H.
    + intros [p H]. destruct p as [ | d p].
      * left. apply String.eqb_eq. exact H.
      * right. cbn in H. injection H as _ H. now exists p.
Qed.

Lemma length_append (s t : string) :
  String.length (s ++ t) = (String.length s + String.length t)%nat.
Proof.
  induction s as [ | c rest IH]; [reflexivity | ]. cbn. now rewrite IH.
Qed.

(** ** [load_data] *)

(** A path cannot end in both extensions. *)
Lemma xlsx_not_csv (p : string) :
  Str.endswith (p ++ ".xlsx") ".csv" = false.
Proof.
  destruct (Str.endswith (p ++ ".xlsx") ".csv") eqn:E; [ | reflexivity].
  apply endswith_iff in E. destruct E as [q E]. exfalso.
  revert q E. induction p as [ | c p IH]; intros q E.
  - destruct q as [ | a [ | b q]]; cbn in E; try discriminate.
    apply (f_equal String.length) in E. cbn in E.
    rewrite length_append in E. cbn in E. lia.
  - destruct q as [ | a q].
    + apply (f_equal String.length) in E. cbn in E.
      rewrite length_append in E. cbn in E. lia.
    + cbn in E. injection E as _ E. exact (IH q E).
Qed.

(** The three columns keep the length of the shortest. *)
Lemma map_result_length {A B : Type} (f : A -> result B) (l : list A) :
  forall out, map_result f l = Ok out -> List.length out = List.length l.
Proof.
  induction l as [ | x rest IH]; intros out H; cbn in H.
  - now injection H as <-.
  - destruct (f x) as [y | e]; [cbn in H | discriminate].
    destruct (map_result f rest) as [ys | e]; [cbn in H | discriminate].
    injection H as <-. cbn. now rewrite (IH ys eq_refl).
Qed.

Lemma map_result_Forall2 {A B : Type} (f : A -> result B) (l : list A) :
  forall out, map_result f l = Ok out -> Forall2 (fun x y => f x = Ok y) l out.
Proof.
  induction l as [ | x rest IH]; intros out H; cbn in H.
  - injection H as <-. constructor.
  - destruct (f x) as [y | e] eqn:E; [cbn in H | discriminate].
    destruct (map_result f rest) as [ys | e]; [cbn in H | discriminate].
    injection H as <-. constructor; [exact E | now apply IH].
Qed.

(** The first element that raises decides the outcome. *)
Lemma map_result_raises {A B : Type} (f : A -> result B) (l : list A) :
  (exists x e, In x l /\ f x = Raise e) ->
  exists e, map_result f l = Raise e.
Proof.
  induction l as [ | x rest IH]; intros (y & e & Hin & Hy).
  - destruct Hin.
  - cbn. destruct (f x) as [b | e'] eqn:E; [cbn | now exists e'].
    destruct Hin as [-> | Hin]; [rewrite Hy in E; discriminate | ].
    destruct (IH (ex_intro _ y (ex_intro _ e (conj Hin Hy)))) as [e' H'].
    rewrite H'. now exists e'.
Qed.

Section LoadDataFacts.

Variable cell : Type.
Variable timedelta : Type.
Variable read_csv : string -> result (@raw_frame cell).
Variable read_excel : string -> result (@raw_frame cell).
Variable astype_str : cell -> string.
Variable to_timedelta : string -> result timedelta.
Variable total_seconds : timedelta -> float.
Variable to_numeric : cell -> float.

Local Abbreviation load :=
  (load_data cell timedelta read_csv read_excel astype_str to_timedelta
     total_seconds to_numeric).
Local Abbreviation prepare :=
  (prepare_frame cell timedelta astype_str to_timedelta total_seconds
     to_numeric).
Local Abbreviation seconds := (seconds_of timedelta to_timedelta total_seconds).
Local Abbreviation row_of := (row_of cell astype_str to_numeric).

Lemma zip_rows_cells (cells : list (cell * cell)) :
  forall time_sec,
    List.length time_sec = List.length cells ->
    zip_rows (map (fun c => normalize_time (astype_str (fst c))) cells)
             (map (fun c => to_numeric (snd c)) cells) time_sec
    = map (fun p => row_of (fst p) (snd p)) (combine cells time_sec).
Proof.
  induction cells as [ | c cells IH]; intros [ | ts time_sec] H;
    cbn in H; try discriminate; [reflexivity | ].
  cbn. f_equal. apply IH. lia.
Qed.

(** What a two-column frame becomes: the rows with a numeric signal, in
    order, each with its normalised time and the seconds read from it. *)
Lemma prepare_two_columns (cells : list (cell * cell)) (rows : list row) :
  prepare (TwoColumns cells) = Ok rows ->
  exists time_sec,
    Forall2 (fun c secs => seconds (normalize_time (astype_str (fst c))) = Ok secs)
            cells time_sec
    /\ rows = filter (fun r => negb (PrimFloat.is_nan (Signal r)))
                (map (fun p => row_of (fst p) (snd p)) (combine cells time_sec)).
Proof.
  unfold prepare_frame.
  destruct (map_result seconds _) as [time_sec | e] eqn:E; [cbn [bind] | discriminate].
  intros H. injection H as <-. exists time_sec.
  pose proof (map_result_length _ _ _ E) as L. rewrite length_map in L.
  pose proof (map_result_Forall2 _ _ _ E) as F.
  split.
  - clear E. revert time_sec L F.
    induction cells as [ | c cells IH]; intros [ | ts time_sec] L F;
      cbn in L; try discriminate; [constructor | ].
    cbn in F. inversion F; subst. constructor; [assumption | ].
    apply IH; [lia | assumption].
  - unfold dropna. now rewrite zip_rows_cells.
Qed.

Lemma load_data_reads (file_path : string) (rows : list row) :
  load file_path = Ok rows ->
  exists df,
    (read_csv file_path = Ok df \/ read_excel file_path = Ok df)
    /\ prepare df = Ok rows.
Proof.
  unfold load_data.
  destruct (Str.endswith file_path ".csv").
  - destruct (read_csv file_path) as [df | e]; [cbn [bind] | discriminate].
    intros H. exists df. split; [now left | exact H].
  - destruct (Str.endswith file_path ".xlsx"); [ | discriminate].
    destruct (read_excel file_path) as [df | e]; [cbn [bind] | discriminate].
    intros H. exists df. split; [now right | exact H].
Qed.

Lemma prepare_rows_invariant (df : raw_frame cell) (rows : list row) :
  prepare df = Ok rows ->
  Forall (fun r =>
            PrimFloat.is_nan (Signal r) = false
            /\ seconds (Time r) = Ok (Time_sec r)
            /\ Str.count_char "'" (Time r) = O
            /\ Str.count_char ":" (Time r) <> 1%nat) rows.
Proof.
  destruct df as [cells | n]; [ | discriminate].
  intros H. destruct (prepare_two_columns cells rows H) as (time_sec & F & ->).
  apply Forall_forall. intros r Hr.
  apply filter_In in Hr. destruct Hr as [Hin Hnan].
  apply negb_true_iff in Hnan. split; [exact Hnan | ].
  apply in_map_iff in Hin. destruct Hin as ([c secs] & <- & Hin). cbn.
  assert (S : seconds (normalize_time (astype_str (fst c))) = Ok secs).
  { clear H Hnan. revert time_sec F Hin.
    induction cells as [ | c' cells IH]; intros time_sec F Hin.
    - destruct Hin.
    - inversion F; subst. cbn in Hin. destruct Hin as [E | Hin].
      + now injection E as -> ->.
      + eapply IH; eassumption. }
  split; [exact S | ].
  unfold normalize_time.
  set (z := Str.remove_char "'" (astype_str (fst c))).
  assert (Q : Str.count_char "'" z = O) by apply count_remove_same.
  destruct (Nat.eqb_spec (Str.count_char ":" z) 1) as [E | E].
  - rewrite !count_append, Q, E. cbn. split; [reflexivity | lia].
  - split; [exact Q | exact E].
Qed.

End LoadDataFacts.

(** X2: after lines 42-43 a time entry holds no quote and never exactly
    one colon: an entry with one colon once the quotes are gone gets
    ["00:"] in front and every other entry only loses its quotes; doing it
    again changes nothing. *)
Theorem normalize_time_shape :
  forall x : string,
    let bare := Str.remove_char "'" x in
    let y := normalize_time x in
    Str.count_char "'" y = O
    /\ Str.count_char ":" y <> 1%nat
    /\ (Str.count_char ":" x = 1%nat -> y = ("00:" ++ bare)%string)
    /\ (Str.count_char ":" x <> 1%nat -> y = bare)
    /\ normalize_time y = y.
Proof.
  intros x bare y. subst y. unfold normalize_time. fold bare.
  assert (Q : Str.count_char "'" bare = O) by apply count_remove_same.
  assert (C : Str.count_char ":" bare = Str.count_char ":" x)
    by (apply count_remove_other; discriminate).
  destruct (Nat.eqb_spec (Str.count_char ":" bare) 1) as [E | E].
  - assert (Q' : Str.count_char "'" ("00:" ++ bare) = O)
      by (rewrite count_append, Q; reflexivity).
    assert (C' : Str.count_char ":" ("00:" ++ bare) = 2%nat)
      by (rewrite count_append, E; reflexivity).
    repeat split; try lia; try assumption.
    rewrite (remove_absent _ _ Q'), C'. reflexivity.
  - repeat split; try lia; try assumption.
    rewrite (remove_absent _ _ Q).
    destruct (Nat.eqb_spec (Str.count_char ":" bare) 1); [contradiction | reflexivity].
Qed.

Section LoadDataProperties.

Variable cell : Type.
Variable timedelta : Type.
Variable read_csv : string -> result (@raw_frame cell).
Variable read_excel : string -> result (@raw_frame cell).
Variable astype_str : cell -> string.
Variable to_timedelta : string -> result timedelta.
Variable total_seconds : timedelta -> float.
Variable to_numeric : cell -> float.

Local Abbreviation load :=
  (load_data cell timedelta read_csv read_excel astype_str to_timedelta
     total_seconds to_numeric).
Local Abbreviation prepare :=
  (prepare_frame cell timedelta astype_str to_timedelta total_seconds
     to_numeric).
Local Abbreviation seconds := (seconds_of timedelta to_timedelta total_seconds).

(** X1: a path that ends neither in [.csv] nor in [.xlsx] (in lower case)
    makes [load_data] raise the unsupported-file-type [ValueError], whatever
    the readers would do: nothing is read. *)
Theorem load_data_unsupported_extension :
  forall file_path : string,
    (forall p, file_path <> (p ++ ".csv")%string) ->
    (forall p, file_path <> (p ++ ".xlsx")%string) ->
    load file_path = Raise unsupported_file_type.
Proof.
  intros file_path H1 H2. unfold load_data.
  destruct (Str.endswith file_path ".csv") eqn:E1.
  - apply endswith_iff in E1. destruct E1 as [p E]. now destruct (H1 p).
  - destruct (Str.endswith file_path ".xlsx") eqn:E2; [ | reflexivity].
    apply endswith_iff in E2. destruct E2 as [p E]. now destruct (H2 p).
Qed.

(** The two extension tests exclude each other: a path ending in [.csv]
    is read by [read_csv] and one ending in [.xlsx] by [read_excel]. *)
Lemma load_data_by_extension :
  forall p : string,
    load (p ++ ".csv") = (df <- read_csv (p ++ ".csv") ;; prepare df)
    /\ load (p ++ ".xlsx") = (df <- read_excel (p ++ ".xlsx") ;; prepare df).
Proof.
  intros p. unfold load_data. split.
  - assert (E : Str.endswith (p ++ ".csv") ".csv" = true)
      by (apply endswith_iff; now exists p).
    now rewrite E.
  - assert (E : Str.endswith (p ++ ".xlsx") ".xlsx" = true)
      by (apply endswith_iff; now exists p).
    now rewrite xlsx_not_csv, E.
Qed.

(** X3: the rows [load_data] returns are the rows of the frame read whose
    signal is a number, in their order, each with its normalised time and
    its numeric signal: a row is dropped exactly when the numeric reading
    of its signal is a NaN. *)
Theorem load_data_keeps_numeric_rows :
  forall (file_path : string) (rows : list row),
    load file_path = Ok rows ->
    exists cells,
      (read_csv file_path = Ok (TwoColumns cells)
       \/ read_excel file_path = Ok (TwoColumns cells))
      /\ map (fun r => (Time r, Signal r)) rows
         = map (fun c => (normalize_time (astype_str (fst c)), to_numeric (snd c)))
             (filter (fun c => negb (PrimFloat.is_nan (to_numeric (snd c)))) cells).
Proof.
  intros file_path rows H.
  destruct (load_data_reads _ _ _ _ _ _ _ _ _ _ H) as (df & R & P).
  destruct df as [cells | n]; [ | discriminate].
  exists cells. split; [exact R | ].
  destruct (prepare_two_columns _ _ _ _ _ _ _ _ P) as (time_sec & F & ->).
  clear R P H. induction F as [ | c secs cells time_sec _ _ IH]; [reflexivity | ].
  cbn. destruct (PrimFloat.is_nan (to_numeric (snd c))); cbn; [exact IH | ].
  now rewrite IH.
Qed.

(** X4: in every row [load_data] returns the signal is not a NaN, the
    seconds are those read from the time of the same row, and the time
    holds no quote and not exactly one colon. *)
Theorem load_data_rows_invariant :
  forall (file_path : string) (rows : list row),
    load file_path = Ok rows ->
    Forall (fun r =>
              PrimFloat.is_nan (Signal r) = false
              /\ seconds (Time r) = Ok (Time_sec r)
              /\ Str.count_char "'" (Time r) = O
              /\ Str.count_char ":" (Time r) <> 1%nat) rows.
Proof.
  intros file_path rows H.
  destruct (load_data_reads _ _ _ _ _ _ _ _ _ _ H) as (df & _ & P).
  exact (prepare_rows_invariant _ _ _ _ _ _ _ _ P).
Qed.

(** X5: the times are read before the rows without a numeric signal are
    dropped: one time that cannot be read makes [load_data] raise, also
    when it stands in a row that would be dropped. *)
Theorem load_data_unreadable_time :
  forall (p : string) (cells : list (cell * cell)) (c : cell * cell) (e : exn),
    read_csv (p ++ ".csv") = Ok (TwoColumns cells) ->
    In c cells ->
    to_timedelta (normalize_time (astype_str (fst c))) = Raise e ->
    exists e', load (p ++ ".csv") = Raise e'.
Proof.
  intros p cells c e R Hin T.
  rewrite (proj1 (load_data_by_extension p)), R. cbn [bind]. unfold prepare_frame.
  destruct (map_result_raises seconds
              (map (fun c => normalize_time (astype_str (fst c))) cells))
    as [e' E].
  { exists (normalize_time (astype_str (fst c))), e. split.
    - apply in_map_iff. now exists c.
    - unfold seconds_of. now rewrite T. }
  rewrite E. now exists e'.
Qed.

End LoadDataProperties.

(** ** [strip] and [lower] *)

Lemma isspace_lower_char (c : ascii) :
  Str.isspace (Str.lower_char c) = Str.isspace c.
Proof. destruct c as [[] [] [] [] [] [] [] []]; reflexivity. Qed.

Lemma no_space_lower (s : string) : no_space (Str.lower s) = no_space s.
Proof.
  induction s as [ | c rest IH]; [reflexivity | ].
  cbn. now rewrite isspace_lower_char, IH.
Qed.

Lemma rstrip_all_space (s : string) :
  all_space s = true -> Str.rstrip s = ""%string.
Proof.
  induction s as [ | c rest IH]; [reflexivity | ]. cbn.
  intros H. apply andb_prop in H. destruct H as [Hc Hr].
  now rewrite (IH Hr), Hc.
Qed.

Lemma rstrip_padded (core post : string) :
  no_space core = true -> all_space post = true ->
  Str.rstrip (core ++ post) = core.
Proof.
  intros Hc Hp. induction core as [ | c rest IH].
  - now apply rstrip_all_space.
  - cbn in Hc. apply andb_prop in Hc. destruct Hc as [Hs Hr].
    apply negb_true_iff in Hs. cbn. rewrite (IH Hr), Hs.
    now destruct rest.
Qed.

Lemma lstrip_padded (pre rest : string) :
  all_space pre = true -> Str.lstrip (pre ++ rest) = Str.lstrip rest.
Proof.
  induction pre as [ | c pre IH]; [reflexivity | ]. cbn.
  intros H. apply andb_prop in H. destruct H as [Hc Hr].
  now rewrite Hc, IH.
Qed.

Lemma lstrip_no_space (core post : string) :
  no_space core = true -> all_space post = true ->
  Str.rstrip (Str.lstrip (core ++ post)) = core.
Proof.
  intros Hc Hp. destruct core as [ | c rest].
  - cbn. clear Hc. induction post as [ | d post IH]; [reflexivity | ].
    cbn in Hp. apply andb_prop in Hp. destruct Hp as [Hd Hr].
    cbn. rewrite Hd. now apply IH.
  - pose proof Hc as Hc'. cbn in Hc'. apply andb_prop in Hc'.
    destruct Hc' as [Hs _]. apply negb_true_iff in Hs.
    cbn [append Str.lstrip]. rewrite Hs.
    now apply (rstrip_padded (String c rest) post).
Qed.

(** Whitespace around a text without whitespace is what [strip] removes. *)
Lemma strip_padded (pre core post : string) :
  all_space pre = true -> no_space core = true -> all_space post = true ->
  Str.strip (pre ++ core ++ post) = core.
Proof.
  intros Hpre Hc Hpost. unfold Str.strip.
  rewrite lstrip_padded by exact Hpre. now apply lstrip_no_space.
Qed.

(** ** [main] *)

Lemma io_bind_input {A : Type} (prompt typed : string) (k : string -> io A)
    (log : list event) :
  io_bind (input prompt typed) k log = k typed (log ++ [Prompted prompt]).
Proof. reflexivity. Qed.

Section MainProperties.

Variable cell : Type.
Variable timedelta : Type.
Variable read_csv : string -> result (@raw_frame cell).
Variable read_excel : string -> result (@raw_frame cell).
Variable astype_str : cell -> string.
Variable to_timedelta : string -> result timedelta.
Variable total_seconds : timedelta -> float.
Variable to_numeric : cell -> float.
Variable coefficients : Type.
Variable butter : Z -> float -> float -> result coefficients.
Variable filtfilt : coefficients -> list float -> result (list float).
Variable path_exists : string -> bool.
Variable show_plots :
  list float -> list float -> list float -> string -> result unit.
Variable to_csv : list (row * float) -> string -> result unit.

Local Abbreviation load :=
  (load_data cell timedelta read_csv read_excel astype_str to_timedelta
     total_seconds to_numeric).
Local Abbreviation run_with filtfilt :=
  (main cell timedelta read_csv read_excel astype_str to_timedelta
     total_seconds to_numeric coefficients butter filtfilt path_exists
     show_plots to_csv).
Local Abbreviation run := (run_with filtfilt).

Local Abbreviation path_prompt :=
  (Prompted "Enter path to ECG/EEG file (.csv or .xlsx): ").
Local Abbreviation type_prompt := (Prompted "Enter signal type (ECG or EEG): ").
Local Abbreviation save_prompt :=
  (Prompted "Save filtered signal as CSV? (y/n): ").

(** The run up to the existence test. *)
Lemma main_unfold (a b c : string) (log : list event) :
  run a b c log
  = if negb (path_exists a)
    then (log ++ [path_prompt; type_prompt; Printed "File not found."], Ok tt)
    else
      (df <~ lift (load a) ;;
       fs <~ lift (estimate_fs (map Time_sec df)) ;;
       _ <~ print ("Estimated sampling frequency: " ++ Str.of_int fs ++ " Hz") ;;
       filtered_signal <~ lift (filter_signal butter filtfilt (map Signal df) fs
                                  (Str.lower (Str.strip b)) default_order) ;;
       _ <~ emit (Plotted (map Time_sec df) (map Signal df) filtered_signal
                    (Str.lower (Str.strip b))) ;;
       _ <~ lift (show_plots (map Time_sec df) (map Signal df) filtered_signal
                    (Str.lower (Str.strip b))) ;;
       save_filtered to_csv df filtered_signal c)
      (log ++ [path_prompt; type_prompt]).
Proof.
  unfold main. rewrite !io_bind_input.
  replace ((log ++ [path_prompt]) ++ [type_prompt])
    with (log ++ [path_prompt; type_prompt]) by now rewrite <- app_assoc.
  destruct (path_exists a); cbn [negb]; [reflexivity | ].
  unfold print, emit. now rewrite <- app_assoc.
Qed.

(** The run depends on what is typed as signal type only through its
    stripped lower-case form. *)
Lemma main_signal_type_ext (a b b' c : string) (log : list event) :
  Str.lower (Str.strip b) = Str.lower (Str.strip b') ->
  run a b c log = run a b' c log.
Proof. intros H. rewrite !main_unfold, H. reflexivity. Qed.

(** X12: [main] takes the signal type in any capitalisation and with any
    whitespace around it: typing a text whose lower-case form is ['ecg'] or
    ['eeg'], padded with whitespace, gives the run that typing the
    lower-case form gives. *)
Theorem main_signal_type_insensitive :
  forall (pre core post a c : string) (log : list event),
    all_space pre = true ->
    all_space post = true ->
    Str.lower core = "ecg"%string \/ Str.lower core = "eeg"%string ->
    run a (pre ++ core ++ post) c log = run a (Str.lower core) c log.
Proof.
  intros pre core post a c log Hpre Hpost Hcore.
  apply main_signal_type_ext.
  assert (N : no_space core = true).
  { rewrite <- no_space_lower. now destruct Hcore as [-> | ->]. }
  rewrite (strip_padded pre core post Hpre N Hpost).
  now destruct Hcore as [-> | ->].
Qed.

(** X13: when the path typed does not exist, [main] prints
    ["File not found."] after its two prompts and returns without an
    error: nothing is read, whatever signal type was typed. *)
Theorem main_file_not_found :
  forall (a b c : string) (log : list event),
    path_exists a = false ->
    run a b c log
    = (log ++ [path_prompt; type_prompt; Printed "File not found."], Ok tt).
Proof.
  intros a b c log H. rewrite main_unfold, H. reflexivity.
Qed.

(** X14: a signal type other than ['ecg'] and ['eeg'] (after stripping and
    lower-casing) is only rejected by [filter_signal]: when the file loads
    and a rate is estimated, [main] has printed the rate before it raises
    the unsupported-type [ValueError], and it has plotted and saved
    nothing. *)
Theorem main_unsupported_type_is_late :
  forall (a b c : string) (log : list event) (df : list row) (fs : Z),
    path_exists a = true ->
    load a = Ok df ->
    estimate_fs (map Time_sec df) = Ok fs ->
    Str.lower (Str.strip b) <> "ecg"%string ->
    Str.lower (Str.strip b) <> "eeg"%string ->
    run a b c log
    = (log ++ [path_prompt; type_prompt;
               Printed ("Estimated sampling frequency: " ++ Str.of_int fs ++ " Hz")],
       Raise unsupported_signal_type).
Proof.
  intros a b c log df fs He Hl Hf H1 H2.
  rewrite main_unfold, He. cbn [negb].
  unfold io_bind, lift, print, emit. rewrite Hl, Hf.
  rewrite (filter_signal_unsupported _ butter filtfilt (map Signal df) fs _
             default_order (round_in_float_range _ _ Hf) H1 H2).
  now rewrite <- app_assoc.
Qed.

(** What the last step adds to the log. *)
Lemma save_filtered_log (df : list row) (filtered : list float) (c : string)
    (log : list event) :
  exists tail,
    fst (save_filtered to_csv df filtered c log) = log ++ save_prompt :: tail
    /\ forall path rows, In (Saved path rows) tail ->
         path = "filtered_output.csv"%string
         /\ Str.lower (Str.strip c) = "y"%string
         /\ rows = combine df filtered
         /\ List.length filtered = List.length df.
Proof.
  unfold save_filtered, input, io_bind, emit, io_ret, lift, print. cbn.
  destruct (String.eqb_spec (Str.lower (Str.strip c)) "y") as [Ey | Ey].
  - destruct (Nat.eqb_spec (List.length filtered) (List.length df)) as [El | El].
    + destruct (to_csv (combine df filtered) "filtered_output.csv").
      * exists [Saved "filtered_output.csv" (combine df filtered);
                Printed "Filtered signal saved to: filtered_output.csv"].
        cbn. rewrite <- !app_assoc. split; [reflexivity | ].
        intros path rows [H | [H | []]]; [ | discriminate].
        injection H as <- <-. now repeat split.
      * exists [Saved "filtered_output.csv" (combine df filtered)].
        cbn. rewrite <- !app_assoc. split; [reflexivity | ].
        intros path rows [H | []].
        injection H as <- <-. now repeat split.
    + exists []. cbn. split; [reflexivity | intros ? ? []].
  - exists []. cbn. split; [reflexivity | intros ? ? []].
Qed.

(** X15: [main] writes a file only at the end, only when the answer to the
    last prompt is [y] after stripping and lower-casing, and only under
    the name [filtered_output.csv]; what it writes pairs the rows
    [load_data] returned, in order, with the values [filter_signal]
    returned for their signal column at the estimated rate.  Conversely,
    when the run gets as far as the last prompt with as many filtered
    values as rows, the answer [y] makes it write exactly that. *)
Theorem main_saves_only_on_consent :
  (forall (a b c path : string) (rows : list (row * float)),
     In (Saved path rows) (fst (run a b c [])) ->
     path = "filtered_output.csv"%string
     /\ Str.lower (Str.strip c) = "y"%string
     /\ exists df fs filtered,
          load a = Ok df
          /\ estimate_fs (map Time_sec df) = Ok fs
          /\ filter_signal butter filtfilt (map Signal df) fs
               (Str.lower (Str.strip b)) default_order = Ok filtered
          /\ List.length filtered = List.length df
          /\ rows = combine df filtered)
  /\ (forall (a b c : string) (df : list row) (fs : Z) (filtered : list float),
        path_exists a = true ->
        load a = Ok df ->
        estimate_fs (map Time_sec df) = Ok fs ->
        filter_signal butter filtfilt (map Signal df) fs
          (Str.lower (Str.strip b)) default_order = Ok filtered ->
        show_plots (map Time_sec df) (map Signal df) filtered
          (Str.lower (Str.strip b)) = Ok tt ->
        Str.lower (Str.strip c) = "y"%string ->
        List.length filtered = List.length df ->
        In (Saved "filtered_output.csv" (combine df filtered))
           (fst (run a b c []))).
Proof.
  split.
  - intros a b c path rows. rewrite main_unfold. cbn [app].
    destruct (path_exists a); cbn [negb].
    2:{ cbn. intros [H | [H | [H | []]]]; discriminate. }
    unfold io_bind, lift, print, emit.
    destruct (load a) as [df | e];
      [ | cbn; intros [H | [H | []]]; discriminate].
    destruct (estimate_fs (map Time_sec df)) as [fs | e] eqn:Ef;
      [ | cbn; intros [H | [H | []]]; discriminate].
    destruct (filter_signal _ _ _ _ _ _) as [filtered | e] eqn:Eg;
      [ | cbn; intros [H | [H | [H | []]]]; discriminate].
    destruct (show_plots _ _ _ _) as [[] | e];
      [ | cbn; intros [H | [H | [H | [H | []]]]]; discriminate].
    destruct (save_filtered_log df filtered c
                (([path_prompt; type_prompt]
                  ++ [Printed ("Estimated sampling frequency: "
                               ++ Str.of_int fs ++ " Hz")])
                 ++ [Plotted (map Time_sec df) (map Signal df) filtered
                       (Str.lower (Str.strip b))]))
      as (tail & -> & T).
    cbn. intros [H | [H | [H | [H | [H | H]]]]]; try discriminate.
    destruct (T path rows H) as (-> & Hy & -> & L).
    repeat split; [exact Hy | ]. exists df, fs, filtered. now repeat split.
  - intros a b c df fs filtered He Hl Hf Hg Hp Hy Hlen.
    rewrite main_unfold, He. cbn [negb app].
    unfold io_bind, lift, print, emit. rewrite Hl, Hf, Hg, Hp.
    unfold save_filtered, input, io_bind, emit, io_ret, lift, print.
    rewrite Hy, Hlen, Nat.eqb_refl. cbn.
    destruct (to_csv _ _); cbn; do 5 right; left; reflexivity.
Qed.

Lemma filter_signal_filtfilt_ext
    (filtfilt' : coefficients -> list float -> result (list float))
    (data : list float) (fs : Z) (signal_type : string) (order : Z) :
  (forall ba, filtfilt' ba data = filtfilt ba data) ->
  filter_signal butter filtfilt' data fs signal_type order
  = filter_signal butter filtfilt data fs signal_type order.
Proof.
  intros H. unfold filter_signal.
  destruct (Py.mul_float_int 0.5 fs) as [nyq | e]; [cbn [bind] | reflexivity].
  destruct (band_edges signal_type) as [[lowcut highcut] | e];
    [cbn [bind] | reflexivity].
  destruct (Py.truediv lowcut nyq) as [low | e]; [cbn [bind] | reflexivity].
  destruct (Py.truediv highcut nyq) as [high | e]; [cbn [bind] | reflexivity].
  destruct (negb _); [reflexivity | ].
  destruct (butter order low high) as [ba | e]; [cbn [bind] | reflexivity].
  apply H.
Qed.

(** X16: a value that failed the numeric reading never reaches the
    filter: [main] hands [filtfilt] a signal without a NaN, so replacing
    [filtfilt] by any function that agrees with it on such signals changes
    nothing in the run. *)
Theorem main_filters_numbers_only :
  forall (filtfilt' : coefficients -> list float -> result (list float))
         (a b c : string) (log : list event),
    (forall ba data,
       Forall (fun x => PrimFloat.is_nan x = false) data ->
       filtfilt' ba data = filtfilt ba data) ->
    run_with filtfilt' a b c log = run a b c log.
Proof.
  intros filtfilt' a b c log H.
  unfold main, input, io_bind, emit, io_ret, print, lift. cbn.
  destruct (path_exists a); cbn [negb]; [ | reflexivity].
  destruct (load a) as [df | e] eqn:L; [ | reflexivity].
  destruct (estimate_fs (map Time_sec df)) as [fs | e]; [ | reflexivity].
  rewrite (filter_signal_filtfilt_ext filtfilt'); [reflexivity | ].
  intros ba. apply H.
  destruct (load_data_reads _ _ _ _ _ _ _ _ _ _ L) as (raw & _ & P).
  pose proof (prepare_rows_invariant _ _ _ _ _ _ _ _ P) as F.
  clear -F. induction F as [ | r rows (N & _) _ IH]; constructor; assumption.
Qed.

End MainProperties.

(** ** Rates that are zero or negative *)

Section RateFacts.

Variable coefficients : Type.
Variable butter : Z -> float -> float -> result coefficients.
Variable filtfilt : coefficients -> list float -> result (list float).

(** X7: a negative rate (above [-2^63]) never reaches the filter design:
    for ['ecg'] and ['eeg'] the Nyquist frequency is negative, so is
    [lowcut / nyq], and [filter_signal] raises the invalid-range
    [ValueError]. *)
Theorem filter_signal_negative_rate :
  forall (data : list float) (fs : Z) (signal_type : string) (order : Z)
         (lowcut highcut : float),
    band_edges signal_type = Ok (lowcut, highcut) ->
    - 2 ^ 63 < fs < 0 ->
    filter_signal butter filtfilt data fs signal_type order
    = Raise (invalid_filter_range fs lowcut highcut).
Proof.
  intros data fs signal_type order lowcut highcut Hb Hfs.
  destruct fs as [ | p | p]; try lia.
  assert (Hn : Py.mul_float_int 0.5 (Zneg p) = Ok (0.5 * Py.of_Z (Zneg p))%float).
  { unfold Py.mul_float_int. rewrite float_of_int_in_range; [reflexivity | ].
    apply Z.lt_trans with (2 ^ 63); [lia | reflexivity]. }
  set (nyq := (0.5 * Py.of_Z (Zneg p))%float) in *.
  assert (N : at_least true 0 (Prim2SF nyq)).
  { subst nyq. rewrite FloatAxioms.mul_spec, Prim2SF_half, Prim2SF_of_Z_neg by lia.
    apply SFmul_half_signed, SFopp_at_least, binary_normalize_positive. }
  assert (Hz : (nyq =? 0)%float = false).
  { rewrite FloatAxioms.eqb_spec, Prim2SF_zero. exact (eqb_zero_at_least _ _ _ N). }
  rewrite (filter_signal_validated _ butter filtfilt data (Zneg p) signal_type
             order lowcut highcut nyq Hb Hn Hz).
  assert (L : (0 <? lowcut / nyq)%float = false).
  { rewrite FloatAxioms.ltb_spec, FloatAxioms.div_spec, Prim2SF_zero.
    apply ltb_zero_negative.
    destruct (band_edges_cases signal_type)
      as [[_ B] | [[_ B] | (_ & _ & B)]];
      rewrite B in Hb; try discriminate; injection Hb as <- <-.
    - change (Prim2SF 0.5) with (S754_finite false 4503599627370496 (-53)).
      exact (SFdiv_positive_by_negative _ _ _ _ N).
    - change (Prim2SF 1.0) with (S754_finite false 4503599627370496 (-52)).
      exact (SFdiv_positive_by_negative _ _ _ _ N). }
  unfold Py.chain_lt. rewrite L. reflexivity.
Qed.

(** X11: a rate of zero is not caught by the range check: for ['ecg'] and
    ['eeg'] the division by the Nyquist frequency raises
    [ZeroDivisionError] first, so a recording whose estimated rate rounds
    to zero ends the pipeline of [main] with that error. *)
Theorem zero_rate_divides_by_zero :
  forall (time_sec signal : list float) (signal_type : string),
    signal_type = "ecg"%string \/ signal_type = "eeg"%string ->
    estimate_fs time_sec = Ok 0 ->
    main_pipeline butter filtfilt time_sec signal signal_type
    = Raise (ZeroDivisionError (Text "float division by zero")).
Proof.
  intros time_sec signal signal_type H E. unfold main_pipeline.
  rewrite E. cbn [bind]. now destruct H as [-> | ->].
Qed.

(** X10: the rate the estimation returns always converts to a float, so
    the Nyquist frequency of line 70 is always computed in the pipeline:
    [0.5 * fs] cannot raise there. *)
Theorem estimated_rate_has_nyquist :
  forall (time_sec : list float) (fs : Z),
    estimate_fs time_sec = Ok fs ->
    Py.mul_float_int 0.5 fs = Ok (0.5 * Py.of_Z fs)%float.
Proof.
  intros time_sec fs E. unfold Py.mul_float_int.
  now rewrite (float_of_int_in_range fs (round_in_float_range _ _ E)).
Qed.

End RateFacts.

(** ** Every outcome of the estimation *)

Lemma Prim2SF_nan_iff (x : float) :
  Prim2SF x = S754_nan <-> PrimFloat.is_nan x = true.
Proof.
  unfold Prim2SF. destruct (PrimFloat.is_nan x); [now split | ].
  split; [ | discriminate].
  destruct (PrimFloat.is_zero x); [discriminate | ].
  destruct (PrimFloat.is_infinity x); [discriminate | ].
  destruct (Z.frexp x) as [r e].
  destruct (shr_fexp prec emax _ _ loc_Exact) as [mrs e'].
  destruct (shr_m mrs); discriminate.
Qed.

(** A float above [0] is the positive infinity or a positive finite
    number. *)
Lemma gtb_zero_inv (x : float) :
  (0 <? x)%float = true ->
  Prim2SF x = S754_infinity false \/ exists m e, Prim2SF x = S754_finite false m e.
Proof.
  rewrite FloatAxioms.ltb_spec, Prim2SF_zero.
  destruct (Prim2SF x) as [s | s | | s m e]; cbn.
  - discriminate.
  - destruct s; [discriminate | now left].
  - discriminate.
  - destruct s; [discriminate | right; now exists m, e].
Qed.

(** One divided by a value is a NaN only when the value is. *)
Lemma SFdiv_one_nan (y : spec_float) :
  SF64div (S754_finite false 4503599627370496 (-52)) y = S754_nan ->
  y = S754_nan.
Proof.
  destruct y as [s | s | | s m e]; try discriminate; [reflexivity | ].
  unfold SF64div, SFdiv.
  pose proof (SFdiv_core_binary_nonneg 4503599627370496 m (-52) e) as H.
  destruct (SFdiv_core_binary prec emax _ (-52) (Zpos m) e) as [[mz ez] lz].
  cbn [fst] in H.
  destruct (binary_round_aux_signed (xorb false s) mz ez lz H); discriminate.
Qed.

Lemma SFdiv_one_positive (m : positive) (e : Z) :
  signed_like false
    (SF64div (S754_finite false 4503599627370496 (-52)) (S754_finite false m e)).
Proof.
  unfold SF64div, SFdiv.
  pose proof (SFdiv_core_binary_nonneg 4503599627370496 m (-52) e) as H.
  destruct (SFdiv_core_binary prec emax _ (-52) (Zpos m) e) as [[mz ez] lz].
  cbn [fst] in H. cbn [xorb]. now apply binary_round_aux_signed.
Qed.

(** X9: the estimation fails in two ways only: with the NaN
    [ValueError], exactly when the mean difference is a NaN, and with the
    infinity [OverflowError]; and for a positive mean difference the rate
    it returns is never negative. *)
Theorem estimate_fs_outcomes :
  forall time_sec : list float,
    let mean_diff := Np.mean (Np.diff time_sec) in
    (estimate_fs time_sec
     = Raise (ValueError (Text "cannot convert float NaN to integer"))
     <-> PrimFloat.is_nan mean_diff = true)
    /\ (forall e, estimate_fs time_sec = Raise e ->
          e = ValueError (Text "cannot convert float NaN to integer")
          \/ e = OverflowError (Text "cannot convert float infinity to integer"))
    /\ ((0 <? mean_diff)%float = true ->
        (exists fs, estimate_fs time_sec = Ok fs /\ 0 <= fs)
        \/ estimate_fs time_sec
           = Raise (OverflowError (Text "cannot convert float infinity to integer"))).
Proof.
  intros time_sec mean_diff. unfold estimate_fs. fold mean_diff.
  unfold Py.round, Np.reciprocal.
  rewrite FloatAxioms.div_spec, Prim2SF_one.
  split; [ | split].
  - rewrite <- Prim2SF_nan_iff. split.
    + intros H. apply SFdiv_one_nan.
      destruct (SF64div _ (Prim2SF mean_diff)); try discriminate. reflexivity.
    + intros ->. reflexivity.
  - intros e H.
    destruct (SF64div _ (Prim2SF mean_diff)); try discriminate;
      injection H as <-; [now right | now left].
  - intros H. destruct (gtb_zero_inv _ H) as [E | (m & e & E)]; rewrite E.
    + left. exists 0. split; [reflexivity | lia].
    + destruct (SFdiv_one_positive m e) as [ | | m' e'].
      * left. exists 0. split; [reflexivity | lia].
      * now right.
      * left. eexists. split; [reflexivity | ].
        apply round_half_even_nonneg.
Qed.

(** ** The rates each band accepts *)

Lemma ecg_accepted_from_91 :
  holds_from
    (fun fs =>
       let nyq := (0.5 * Py.of_Z fs)%float in
       Bool.eqb (Py.chain_lt (0.5 / nyq) (45.0 / nyq)) (90 <? fs))
    1 (Z.to_nat 100000) = true.
Proof. vm_compute. reflexivity. Qed.

Lemma eeg_accepted_from_61 :
  holds_from
    (fun fs =>
       let nyq := (0.5 * Py.of_Z fs)%float in
       Bool.eqb (Py.chain_lt (1.0 / nyq) (30.0 / nyq)) (60 <? fs))
    1 (Z.to_nat 100000) = true.
Proof. vm_compute. reflexivity. Qed.

Section Thresholds.

Variable coefficients : Type.
Variable butter : Z -> float -> float -> result coefficients.
Variable filtfilt : coefficients -> list float -> result (list float).

(** X8: up to 100 kHz the range check lets a rate through exactly when it
    is above twice the upper band edge: from 91 Hz on for ['ecg'] and from
    61 Hz on for ['eeg'] the band goes to [butter] and [filtfilt], and at
    twice the edge itself (90 Hz, 60 Hz) and below the invalid-range
    [ValueError] is raised. *)
Theorem filter_signal_threshold :
  forall (data : list float) (fs : Z) (signal_type : string) (order : Z)
         (lowcut highcut : float) (twice_highcut : Z),
    band_edges signal_type = Ok (lowcut, highcut) ->
    Py.round (2 * highcut)%float = Ok twice_highcut ->
    0 < fs <= 100000 ->
    let nyq := (0.5 * Py.of_Z fs)%float in
    (twice_highcut < fs ->
       filter_signal butter filtfilt data fs signal_type order
       = (ba <- butter order (lowcut / nyq)%float (highcut / nyq)%float ;;
          filtfilt ba data))
    /\ (fs <= twice_highcut ->
          filter_signal butter filtfilt data fs signal_type order
          = Raise (invalid_filter_range fs lowcut highcut)).
Proof.
  intros data fs signal_type order lowcut highcut twice_highcut Hb Ht Hfs nyq.
  destruct (nyquist_nonzero fs ltac:(lia)) as (nyq' & Hn & Hz).
  pose proof (mul_float_int_inv _ _ _ Hn) as En. fold nyq in En. subst nyq'.
  rewrite (filter_signal_validated _ butter filtfilt data fs signal_type order
             lowcut highcut nyq Hb Hn Hz).
  assert (Hin : 1 <= fs < 1 + Z.of_nat (Z.to_nat 100000)) by lia.
  assert (C : Py.chain_lt (lowcut / nyq) (highcut / nyq) = (twice_highcut <? fs)).
  { destruct (band_edges_cases signal_type)
      as [[_ B] | [[_ B] | (_ & _ & B)]];
      rewrite B in Hb; try discriminate;
      injection Hb as <- <-; vm_compute in Ht; injection Ht as <-.
    - pose proof (holds_from_spec _ _ _ fs ecg_accepted_from_91 Hin) as E.
      cbv beta zeta in E. fold nyq in E. now apply Bool.eqb_prop in E.
    - pose proof (holds_from_spec _ _ _ fs eeg_accepted_from_61 Hin) as E.
      cbv beta zeta in E. fold nyq in E. now apply Bool.eqb_prop in E. }
  rewrite C. split; intros H.
  - apply Z.ltb_lt in H. now rewrite H.
  - apply Z.ltb_ge in H. now rewrite H.
Qed.

End Thresholds.

(** ** What makes [filter_signal] return *)

Section FilterSignalSuccess.

Variable coefficients : Type.
Variable butter : Z -> float -> float -> result coefficients.
Variable filtfilt : coefficients -> list float -> result (list float).

(** X6: [filter_signal] returns a sequence exactly when the Nyquist
    frequency is computed and not zero, the signal type is in the table,
    the normalised band passes the check and both scipy calls return; the
    sequence is then what [filtfilt] returned on the unchanged data:
    [filter_signal] adds, drops and changes no sample itself. *)
Theorem filter_signal_success :
  forall (data : list float) (fs : Z) (signal_type : string) (order : Z)
         (filtered : list float),
    filter_signal butter filtfilt data fs signal_type order = Ok filtered
    <-> exists (nyq lowcut highcut : float) (ba : coefficients),
          Py.mul_float_int 0.5 fs = Ok nyq
          /\ (nyq =? 0)%float = false
          /\ band_edges signal_type = Ok (lowcut, highcut)
          /\ Py.chain_lt (lowcut / nyq) (highcut / nyq) = true
          /\ butter order (lowcut / nyq)%float (highcut / nyq)%float = Ok ba
          /\ filtfilt ba data = Ok filtered.
Proof.
  intros data fs signal_type order filtered. split.
  - unfold filter_signal.
    destruct (Py.mul_float_int 0.5 fs) as [nyq | e]; [cbn [bind] | discriminate].
    destruct (band_edges signal_type) as [[lowcut highcut] | e];
      [cbn [bind] | discriminate].
    unfold Py.truediv.
    destruct (nyq =? 0)%float eqn:Z0; [discriminate | cbn [bind]].
    destruct (Py.chain_lt _ _) eqn:C; [cbn [negb] | discriminate].
    destruct (butter order _ _) as [ba | e] eqn:B; [cbn [bind] | discriminate].
    intros H. exists nyq, lowcut, highcut, ba. now repeat split.
  - intros (nyq & lowcut & highcut & ba & Hn & Hz & Hb & C & B & F).
    rewrite (filter_signal_validated _ butter filtfilt data fs signal_type
               order lowcut highcut nyq Hb Hn Hz), C, B.
    exact F.
Qed.

End FilterSignalSuccess.

(** ** The statements on concrete values *)

Lemma load_data_unsupported_extension_witness :
  demo_load_data "recording.CSV" = Raise unsupported_file_type.
Proof.
  apply (load_data_unsupported_extension string nat demo_reader demo_reader
           (fun c => c) demo_to_timedelta demo_total_seconds demo_to_numeric
           "recording.CSV").
  - intros p E.
    assert (H : Str.endswith "recording.CSV" ".csv" = true)
      by (apply endswith_iff; now exists p).
    discriminate H.
  - intros p E.
    assert (H : Str.endswith "recording.CSV" ".xlsx" = true)
      by (apply endswith_iff; now exists p).
    discriminate H.
Defined.

Lemma load_data_keeps_numeric_rows_witness :
  exists rows,
    demo_load_data "recording.csv" = Ok rows
    /\ map (fun r => (Time r, Signal r)) rows
       = [("00:00:01", 1.5); ("00:00:03", 2.5); ("00:00:04", 3.5)]%string%float.
Proof.
  eexists. split; [reflexivity | ].
  destruct (load_data_keeps_numeric_rows string nat demo_reader demo_reader
              (fun c => c) demo_to_timedelta demo_total_seconds demo_to_numeric
              "recording.csv" _ eq_refl) as (cells & _ & E).
  reflexivity.
Defined.

Lemma load_data_rows_invariant_witness :
  exists rows,
    demo_load_data "recording.csv" = Ok rows
    /\ Forall (fun r => PrimFloat.is_nan (Signal r) = false) rows.
Proof.
  eexists. split; [reflexivity | ].
  pose proof (load_data_rows_invariant string nat demo_reader demo_reader
                (fun c => c) demo_to_timedelta demo_total_seconds
                demo_to_numeric "recording.csv" _ eq_refl) as F.
  eapply Forall_impl; [ | exact F]. intros r H. exact (proj1 H).
Defined.

Lemma load_data_unreadable_time_witness :
  exists e,
    load_data string nat
      (fun _ => Ok (TwoColumns [("00:01", "1.5"); ("later", "bad")]%string))
      demo_reader (fun c => c) demo_to_timedelta demo_total_seconds
      demo_to_numeric "recording.csv"
    = Raise e.
Proof.
  apply (load_data_unreadable_time string nat
           (fun _ => Ok (TwoColumns [("00:01", "1.5"); ("later", "bad")]%string))
           demo_reader (fun c => c) demo_to_timedelta demo_total_seconds
           demo_to_numeric "recording"
           [("00:01", "1.5"); ("later", "bad")]%string
           ("later", "bad")%string
           (ValueError (Text "unit abbreviation w/o a number"))).
  - reflexivity.
  - right. left. reflexivity.
  - reflexivity.
Defined.

Lemma filter_signal_success_witness :
  filter_signal butter_args filtfilt_id [1; 2; 3]%float 100 "ecg" default_order
  = Ok [1; 2; 3]%float.
Proof.
  apply (proj2 (filter_signal_success _ butter_args filtfilt_id
                  [1; 2; 3]%float 100 "ecg" default_order [1; 2; 3]%float)).
  exists 50%float, 0.5%float, 45.0%float, (4, 0.01%float, 0.9%float).
  repeat split.
Defined.

Lemma filter_signal_negative_rate_witness :
  band_edges "eeg" = Ok (1.0, 30.0)%float
  /\ - 2 ^ 63 < -100 < 0
  /\ filter_signal butter_args filtfilt_id [1; 2; 3]%float (-100) "eeg"
       default_order
     = Raise (invalid_filter_range (-100) 1.0 30.0).
Proof.
  split; [reflexivity | ]. split; [lia | ].
  apply (filter_signal_negative_rate _ butter_args filtfilt_id
           [1; 2; 3]%float (-100) "eeg" default_order 1.0%float 30.0%float
           eq_refl).
  lia.
Defined.

Lemma filter_signal_threshold_witness :
  Py.round (2 * 45.0)%float = Ok 90
  /\ filter_signal butter_args filtfilt_id [1; 2; 3]%float 91 "ecg" default_order
     = Ok [1; 2; 3]%float
  /\ filter_signal butter_args filtfilt_id [1; 2; 3]%float 90 "ecg" default_order
     = Raise (invalid_filter_range 90 0.5 45.0).
Proof.
  split; [reflexivity | ]. split.
  - rewrite (proj1 (filter_signal_threshold _ butter_args filtfilt_id
                      [1; 2; 3]%float 91 "ecg" default_order 0.5%float
                      45.0%float 90 eq_refl eq_refl ltac:(lia)) ltac:(lia)).
    reflexivity.
  - apply (proj2 (filter_signal_threshold _ butter_args filtfilt_id
                    [1; 2; 3]%float 90 "ecg" default_order 0.5%float
                    45.0%float 90 eq_refl eq_refl ltac:(lia))).
    lia.
Defined.

Lemma estimated_rate_has_nyquist_witness :
  estimate_fs [0.0; 0.01; 0.02; 0.03]%float = Ok 100
  /\ Py.mul_float_int 0.5 100 = Ok 50%float.
Proof.
  split; [reflexivity | ].
  exact (estimated_rate_has_nyquist [0.0; 0.01; 0.02; 0.03]%float 100 eq_refl).
Defined.

Lemma zero_rate_divides_by_zero_witness :
  estimate_fs [0; 3; 6]%float = Ok 0
  /\ main_pipeline butter_args filtfilt_id [0; 3; 6]%float [1; 2; 3]%float "ecg"
     = Raise (ZeroDivisionError (Text "float division by zero")).
Proof.
  split; [reflexivity | ].
  apply (zero_rate_divides_by_zero _ butter_args filtfilt_id
           [0; 3; 6]%float [1; 2; 3]%float "ecg").
  - now left.
  - reflexivity.
Defined.

Lemma main_signal_type_insensitive_witness :
  demo_main (fun _ => true) "recording.csv" "  EeG " "n" []
  = demo_main (fun _ => true) "recording.csv" "eeg" "n" [].
Proof.
  apply (main_signal_type_insensitive string nat demo_reader demo_reader
           (fun c => c) demo_to_timedelta demo_total_seconds demo_to_numeric
           _ butter_args filtfilt_id (fun _ => true) demo_show_plots demo_to_csv
           "  " "EeG" " " "recording.csv" "n" []).
  - reflexivity.
  - reflexivity.
  - right. reflexivity.
Defined.

Lemma main_file_not_found_witness :
  demo_main (fun _ => false) "missing.csv" "ecg" "y" []
  = ([Prompted "Enter path to ECG/EEG file (.csv or .xlsx): ";
      Prompted "Enter signal type (ECG or EEG): ";
      Printed "File not found."], Ok tt).
Proof.
  apply (main_file_not_found string nat demo_reader demo_reader
           (fun c => c) demo_to_timedelta demo_total_seconds demo_to_numeric
           _ butter_args filtfilt_id (fun _ => false) demo_show_plots
           demo_to_csv "missing.csv" "ecg" "y" []).
  reflexivity.
Defined.

Lemma main_unsupported_type_is_late_witness :
  demo_main (fun _ => true) "recording.csv" "emg" "y" []
  = ([Prompted "Enter path to ECG/EEG file (.csv or .xlsx): ";
      Prompted "Enter signal type (ECG or EEG): ";
      Printed "Estimated sampling frequency: 85 Hz"],
     Raise unsupported_signal_type).
Proof.
  apply (main_unsupported_type_is_late string nat demo_reader demo_reader
           (fun c => c) demo_to_timedelta demo_total_seconds demo_to_numeric
           _ butter_args filtfilt_id (fun _ => true) demo_show_plots
           demo_to_csv "recording.csv" "emg" "y" [] _ 85 eq_refl eq_refl eq_refl).
  - discriminate.
  - discriminate.
Defined.

Lemma main_saves_only_on_consent_witness :
  exists rows,
    In (Saved "filtered_output.csv" rows)
       (fst (demo_main (fun _ => true) "recording.csv" "eeg" " Y" []))
    /\ Str.lower (Str.strip " Y") = "y"%string
    /\ exists df fs filtered,
         demo_load_data "recording.csv" = Ok df
         /\ estimate_fs (map Time_sec df) = Ok fs
         /\ filter_signal butter_args filtfilt_id (map Signal df) fs "eeg"
              default_order = Ok filtered
         /\ List.length filtered = List.length df
         /\ rows = combine df filtered.
Proof.
  eexists. split; [do 5 right; left; reflexivity | ].
  exact (proj2 (proj1 (main_saves_only_on_consent string nat demo_reader
                         demo_reader (fun c => c) demo_to_timedelta
                         demo_total_seconds demo_to_numeric _ butter_args
                         filtfilt_id (fun _ => true) demo_show_plots demo_to_csv)
                  "recording.csv"%string "eeg"%string " Y"%string
                  "filtered_output.csv"%string _
                  (or_intror (or_intror (or_intror (or_intror (or_intror
                     (or_introl eq_refl)))))))).
Defined.

Lemma main_filters_numbers_only_witness :
  main string nat demo_reader demo_reader (fun c => c)
    demo_to_timedelta demo_total_seconds demo_to_numeric
    (Z * float * float) butter_args demo_filtfilt_strict
    (fun _ => true) demo_show_plots demo_to_csv "recording.csv" "eeg" "n" []
  = demo_main (fun _ => true) "recording.csv" "eeg" "n" [].
Proof.
  apply (main_filters_numbers_only string nat demo_reader demo_reader
           (fun c => c) demo_to_timedelta demo_total_seconds demo_to_numeric
           _ butter_args filtfilt_id (fun _ => true) demo_show_plots
           demo_to_csv demo_filtfilt_strict "recording.csv" "eeg" "n" []).
  intros ba data F. unfold demo_filtfilt_strict, filtfilt_id.
  assert (E : existsb PrimFloat.is_nan data = false).
  { induction F as [ | x data Hx _ IH]; [reflexivity | ].
    cbn [existsb]. now rewrite Hx, IH. }
  now rewrite E.
Defined.
